(** * Cached fetch gateway and route handlers of the Roblox API server

    A shallow embedding of [src/server.js]: the response cache, the
    helper [fetchFromRobloxAPI], the response envelope helpers and the
    route handlers whose behaviour is specified.  JavaScript values are
    an inductive type, exceptions are explicit results, and the mutable
    world (cache table, clock, effects performed, random draws) is
    threaded through a small state-and-exception monad. *)

From Stdlib Require Import ZArith QArith Qround String Ascii List Lia DecimalString.
From Stdlib Require Import Decimal DecimalZ.
From stdpp Require Import gmap strings.

Set Warnings "-register-all".

Local Open Scope string_scope.
Local Open Scope list_scope.
Local Open Scope Z_scope.

(** ** JavaScript values *)

(** The values that flow through the server: decoded JSON documents,
    [undefined], and the numbers built by the handlers.  Numbers are exact
    rationals (the rounding of doubles is not modelled) and [VNaN] is the
    not-a-number value.  An object is the list of its own properties. *)
Inductive Val : Type :=
| VUndef
| VNull
| VBool (b : bool)
| VNaN
| VNum (q : Q)
| VStr (s : string)
| VArr (items : list Val)
| VObj (props : list (string * Val)).

Definition VInt (z : Z) : Val := VNum (inject_Z z).

(** What an HTTP response of the upstream carries once axios resolved it. *)
Record HttpResponse : Type := {
  resp_status : Z;
  resp_statusText : string;
  resp_data : Val
}.

(** Thrown values.  An axios rejection has a message, an optional error
    code, a [request] member when the request was sent, and a [response]
    member when the upstream answered. *)
Inductive Exn : Type :=
| AxiosError (message : string) (code : option string)
             (request : bool) (response : option HttpResponse)
| Error (message : string)
| TypeError (message : string)
| RangeError (message : string).

Definition exn_message (e : Exn) : string :=
  match e with
  | AxiosError m _ _ _ | Error m | TypeError m | RangeError m => m
  end.

(** [error.response]: only an axios rejection can have one. *)
Definition exn_response (e : Exn) : option HttpResponse :=
  match e with
  | AxiosError _ _ _ r => r
  | _ => None
  end.

(** [error.request], as a truth value. *)
Definition exn_request (e : Exn) : bool :=
  match e with
  | AxiosError _ _ rq _ => rq
  | _ => false
  end.

Definition exn_code (e : Exn) : option string :=
  match e with
  | AxiosError _ c _ _ => c
  | _ => None
  end.

(** ** The outside world *)

(** How the promise returned by [axios.get] settles, and after how many
    milliseconds. *)
Inductive Outcome : Type :=
| Resolve (r : HttpResponse)
| Reject (e : Exn).

Record Reply : Type := {
  latency : N;
  outcome : Outcome
}.

(** The second argument of [axios.get]. *)
Record RequestConfig : Type := {
  cfg_timeout : Z;
  cfg_headers : list (string * string)
}.

(** Effects on the shared resources, in the order they are performed. *)
Inductive Event : Type :=
| CacheHas (k : string)
| CacheGet (k : string)
| CacheSet (k : string) (v : Val) (ttl : Z)
| HttpGet (url : string) (cfg : RequestConfig).

Definition is_outbound (e : Event) : bool :=
  match e with
  | HttpGet _ _ => true
  | _ => false
  end.

Definition outbound_calls (tr : list Event) : list Event := List.filter is_outbound tr.

(** Everything the program takes from its surroundings: the upstream
    (the reply to the [n]-th outbound call, given its URL), the random
    generator, the process environment and the built-ins of the
    JavaScript runtime that the server only passes along
    ([Date.prototype.toISOString], and the conversion to a number of
    strings, arrays and objects). *)
Record Runtime : Type := {
  upstream : string -> nat -> Reply;
  random_bits : nat -> N;
  API_KEY : option string;
  NODE_ENV : option string;
  toISOString : Z -> string;
  ToNumber_builtin : Val -> Val
}.

(** ** The cache table *)

Record CacheEntry : Type := {
  entry_value : Val;
  entry_expiry : Z
}.

(** The mutable world: the cache table of line 17, the clock in
    milliseconds, the effects performed so far and the number of random
    draws consumed. *)
Record World : Type := {
  cache : gmap string CacheEntry;
  now : Z;
  trace : list Event;
  draws : nat
}.

Definition initial_world (t0 : Z) : World :=
  {| cache := ∅; now := t0; trace := []; draws := 0 |}.

Definition with_cache (c : gmap string CacheEntry) (w : World) : World :=
  {| cache := c; now := now w; trace := trace w; draws := draws w |}.

Definition record (e : Event) (w : World) : World :=
  {| cache := cache w; now := now w; trace := trace w ++ [e]; draws := draws w |}.

Definition elapse (d : N) (w : World) : World :=
  {| cache := cache w; now := now w + Z.of_N d; trace := trace w; draws := draws w |}.

(** Modelled from the spec: the cache package (node-cache) is a dependency
    that is not part of the sources; its table follows section 3 of the
    specification.  An entry is absent once the current time passes its
    expiry, whether or not it is still stored. *)
Definition live (t : Z) (e : CacheEntry) : bool := t <=? entry_expiry e.

(** Modelled from the spec: [cache.has(key)], a non-expired entry exists. *)
Definition table_has (c : gmap string CacheEntry) (t : Z) (k : string) : bool :=
  match c !! k with
  | Some e => live t e
  | None => false
  end.

(** Modelled from the spec: [cache.get(key)], the value of the entry when
    it has not expired, [undefined] otherwise. *)
Definition table_get (c : gmap string CacheEntry) (t : Z) (k : string) : Val :=
  match c !! k with
  | Some e => if live t e then entry_value e else VUndef
  | None => VUndef
  end.

(** Modelled from the spec: [cache.set(key, value, ttl)] with [ttl] in
    seconds; the expiry is the insertion time plus the time-to-live and a
    set for an existing key replaces its entry. *)
Definition table_set (c : gmap string CacheEntry) (t : Z) (k : string)
    (v : Val) (ttl : Z) : gmap string CacheEntry :=
  <[k := {| entry_value := v; entry_expiry := t + ttl * 1000 |}]> c.

(** ** State and exceptions *)

Inductive Res (A : Type) : Type :=
| Ok (a : A)
| Throw (e : Exn).
Arguments Ok {A} a.
Arguments Throw {A} e.

Definition M (A : Type) : Type := World -> Res A * World.

Definition ret {A} (a : A) : M A := fun w => (Ok a, w).

Definition throw {A} (e : Exn) : M A := fun w => (Throw e, w).

Definition bind {A B} (m : M A) (k : A -> M B) : M B :=
  fun w =>
    match m w with
    | (Ok a, w') => k a w'
    | (Throw e, w') => (Throw e, w')
    end.

(** [try { body } catch (error) { handler }] *)
Definition try_catch {A} (body : M A) (handler : Exn -> M A) : M A :=
  fun w =>
    match body w with
    | (Ok a, w') => (Ok a, w')
    | (Throw e, w') => handler e w'
    end.

Definition lift {A} (r : Res A) : M A := fun w => (r, w).

Notation "'let*' x := m 'in' k" := (bind m (fun x => k))
  (at level 10, x name, m at level 100, k at level 200).
Notation "'do' m 'then' k" := (bind m (fun _ => k))
  (at level 10, m at level 100, k at level 200).

Definition string_of_Z (z : Z) : string := NilZero.string_of_int (Z.to_int z).

(** ** The operations of JavaScript used by the handlers *)

Fixpoint own_property (props : list (string * Val)) (name : string) : Val :=
  match props with
  | [] => VUndef
  | (k, v) :: rest => if String.eqb k name then v else own_property rest name
  end.

(** [v.name]: reading a property of [undefined] or [null] throws a
    [TypeError]; arrays and strings have a [length] (counted in the
    characters of the model); every other read of a missing property
    gives [undefined]. *)
Definition get_prop (v : Val) (name : string) : Res Val :=
  match v with
  | VUndef =>
      Throw (TypeError ("Cannot read properties of undefined (reading '" +:+ name +:+ "')"))
  | VNull =>
      Throw (TypeError ("Cannot read properties of null (reading '" +:+ name +:+ "')"))
  | VObj props => Ok (own_property props name)
  | VArr items =>
      if String.eqb name "length" then Ok (VInt (Z.of_nat (List.length items))) else Ok VUndef
  | VStr s =>
      if String.eqb name "length" then Ok (VInt (Z.of_nat (String.length s))) else Ok VUndef
  | VBool _ | VNaN | VNum _ => Ok VUndef
  end.

(** [v[0]] *)
Definition get_first (v : Val) : Res Val :=
  match v with
  | VUndef => Throw (TypeError "Cannot read properties of undefined (reading '0')")
  | VNull => Throw (TypeError "Cannot read properties of null (reading '0')")
  | VArr items => Ok (List.hd VUndef items)
  | VStr s =>
      match s with
      | EmptyString => Ok VUndef
      | String c _ => Ok (VStr (String c EmptyString))
      end
  | VObj props => Ok (own_property props "0")
  | VBool _ | VNaN | VNum _ => Ok VUndef
  end.

(** The truth value of a value in a condition or on the left of [||]. *)
Definition truthy (v : Val) : bool :=
  match v with
  | VUndef | VNull | VNaN => false
  | VBool b => b
  | VNum q => negb (Qeq_bool q 0)
  | VStr s => negb (String.eqb s "")
  | VArr _ | VObj _ => true
  end.

(** [a || b] when [b] needs no evaluation. *)
Definition js_or (a b : Val) : Val := if truthy a then a else b.

(** *** [parseInt] *)

Definition is_white_space (c : ascii) : bool :=
  let n := nat_of_ascii c in
  ((9 <=? n) && (n <=? 13))%nat || (n =? 32)%nat.

Fixpoint skip_white_space (s : string) : string :=
  match s with
  | String c rest => if is_white_space c then skip_white_space rest else s
  | EmptyString => s
  end.

(** The value of a digit in the given radix, when it is one. *)
Definition digit_value (radix : Z) (c : ascii) : option Z :=
  let n := Z.of_nat (nat_of_ascii c) in
  let d :=
    if (48 <=? n) && (n <=? 57) then n - 48
    else if (97 <=? n) && (n <=? 122) then n - 87
    else if (65 <=? n) && (n <=? 90) then n - 55
    else 36 in
  if d <? radix then Some d else None.

(** The longest prefix of digits, read in the radix; [None] when there is
    no digit at all. *)
Fixpoint read_digits (radix : Z) (acc : option Z) (s : string) : option Z :=
  match s with
  | String c rest =>
      match digit_value radix c with
      | Some d => read_digits radix (Some (default 0 acc * radix + d)) rest
      | None => acc
      end
  | EmptyString => acc
  end.

Definition strip_hex_prefix (s : string) : option string :=
  match s with
  | String "0" (String "x" rest) | String "0" (String "X" rest) => Some rest
  | _ => None
  end.

(** [parseInt(s)] without a radix: leading white space, a sign, a [0x]
    prefix, then the digits; [None] is [NaN].  The result is exact. *)
Definition parseInt (s : string) : option Z :=
  let s := skip_white_space s in
  let '(sign, s) :=
    match s with
    | String "-" rest => (-1, rest)
    | String "+" rest => (1, rest)
    | _ => (1, s)
    end in
  let digits :=
    match strip_hex_prefix s with
    | Some rest => read_digits 16 None rest
    | None => read_digits 10 None s
    end in
  option_map (Z.mul sign) digits.

(** [parseInt(x)] for a parameter that may be [undefined]. *)
Definition parseInt_opt (x : option string) : option Z :=
  match x with
  | Some s => parseInt s
  | None => parseInt "undefined"
  end.

Definition number (n : option Z) : Val :=
  match n with
  | Some z => VInt z
  | None => VNaN
  end.

(** ** Requests and responses *)

(** A request once the route matched and the validators ran: the route
    parameters, the query string, the headers, and the errors that the
    validation chain recorded ([validationResult(req).array()]). *)
Record Request : Type := {
  req_params : string -> string;
  req_query : string -> option string;
  req_headers : string -> option string;
  req_validation : list Val
}.

(** What [res.status(code).json(body)] sends. *)
Record Response : Type := {
  res_status : Z;
  res_body : Val
}.

(** How a promise settled, for [Promise.allSettled]. *)
Inductive Settled : Type :=
| Fulfilled (value : Val)
| Rejected (reason : Exn).

Definition settle (r : Res Val) : Settled :=
  match r with
  | Ok v => Fulfilled v
  | Throw e => Rejected e
  end.

Definition at_time (t : Z) (w : World) : World :=
  {| cache := cache w; now := t; trace := trace w; draws := draws w |}.

Definition drawn (w : World) : World :=
  {| cache := cache w; now := now w; trace := trace w; draws := S (draws w) |}.

(** The world after [k] random draws. *)
Definition advance (k : nat) (w : World) : World :=
  {| cache := cache w; now := now w; trace := trace w; draws := (k + draws w)%nat |}.



(** [v.name] for a value that is an object. *)
Definition own_property_of (v : Val) (name : string) : Val :=
  match v with
  | VObj props => own_property props name
  | _ => VUndef
  end.

(** [Math.floor] *)
Definition Math_floor (q : Q) : Z := Qfloor q.

Section Server.

Context (rt : Runtime).

(** *** Cache operations on the world *)

Definition cache_has (k : string) : M bool :=
  fun w => (Ok (table_has (cache w) (now w) k), record (CacheHas k) w).

Definition cache_get (k : string) : M Val :=
  fun w => (Ok (table_get (cache w) (now w) k), record (CacheGet k) w).

Definition cache_set (k : string) (v : Val) (ttl : Z) : M unit :=
  fun w =>
    (Ok tt, record (CacheSet k v ttl) (with_cache (table_set (cache w) (now w) k v ttl) w)).

(** *** The outbound call *)

(** The reply that the next outbound call will get: the upstream is asked
    with the number of calls made before. *)
Definition next_reply (url : string) (w : World) : Reply :=
  upstream rt url (length (outbound_calls (trace w))).

(** [await axios.get(url, cfg)]: the request is logged, the clock moves
    by the latency of the reply, and the promise settles as the upstream
    decides for this call. *)
Definition axios_get (url : string) (cfg : RequestConfig) : M HttpResponse :=
  fun w =>
    let r := next_reply url w in
    let w' := elapse (latency r) (record (HttpGet url cfg) w) in
    match outcome r with
    | Resolve resp => (Ok resp, w')
    | Reject e => (Throw e, w')
    end.

(** The request configuration of lines 104 to 107. *)
Definition roblox_config : RequestConfig :=
  {| cfg_timeout := 10000; cfg_headers := [("User-Agent", "RobloxAPI/1.0")] |}.

(** The truth value of [cacheKey] in [if (cacheKey)]: [null] and the empty
    string are falsy.  Returns the key to use when it is truthy. *)
Definition truthy_key (cacheKey : option string) : option string :=
  match cacheKey with
  | Some k => if String.eqb k "" then None else Some k
  | None => None
  end.

(** The [catch] block of lines 118 to 126. *)
Definition rethrow (error : Exn) : Exn :=
  match exn_response error with
  | Some r =>
      Error ("Roblox API error: " +:+ string_of_Z (resp_status r) +:+ " - " +:+ resp_statusText r)
  | None =>
      if exn_request error then Error "Failed to connect to Roblox API"
      else Error ("Request error: " +:+ exn_message error)
  end.

(** [fetchFromRobloxAPI(url, cacheKey = null, ttl = 300)], lines 96 to 127.
    An omitted argument is [None]. *)
Definition fetchFromRobloxAPI (url : string) (cacheKey : option string)
    (ttl : option Z) : M Val :=
  let ttl := default 300 ttl in
  try_catch
    (let* hit := match truthy_key cacheKey with
                 | Some k => cache_has k
                 | None => ret false
                 end in
     if hit then
       match truthy_key cacheKey with
       | Some k => cache_get k
       | None => ret VUndef
       end
     else
       let* response := axios_get url roblox_config in
       let data := resp_data response in
       do match truthy_key cacheKey with
          | Some k => cache_set k data ttl
          | None => ret tt
          end
       then ret data)
    (fun error => throw (rethrow error)).

(** *** Clock and random generator *)

(** [new Date().toISOString()] *)
Definition Date_now_iso : M string :=
  fun w => (Ok (toISOString rt (now w)), w).

(** The [n]-th value of [Math.random()], a multiple of [2^-53] in [0, 1). *)
Definition random_unit (n : nat) : Q :=
  Qmake (Z.of_N (random_bits rt n mod 2 ^ 53)) (2 ^ 53).

(** [Math.random()] *)
Definition Math_random : M Q :=
  fun w => (Ok (random_unit (draws w)), drawn w).

(** [Math.floor(Math.random() * n)] *)
Definition random_below (n : Z) : M Z :=
  let* r := Math_random in
  ret (Math_floor (r * inject_Z n)).

(** [Math.random() > bound] *)
Definition random_above (bound : Q) : M bool :=
  let* r := Math_random in
  ret (negb (Qle_bool r bound)).

(** [x > 0] *)
Definition to_number (v : Val) : Val :=
  match v with
  | VUndef | VNaN => VNaN
  | VNull | VBool false => VInt 0
  | VBool true => VInt 1
  | VNum q => VNum q
  | VStr _ | VArr _ | VObj _ => ToNumber_builtin rt v
  end.

Definition js_gt0 (v : Val) : bool :=
  match to_number v with
  | VNum q => negb (Qle_bool q 0)
  | _ => false
  end.

(** *** Response envelopes *)

(** [sendResponse(res, data, message = 'Success')], lines 75 to 82. *)
Definition sendResponse (data : Val) (message : option string) : M Response :=
  let* timestamp := Date_now_iso in
  ret {| res_status := 200;
         res_body := VObj [("success", VBool true);
                           ("message", VStr (default "Success" message));
                           ("data", data);
                           ("timestamp", VStr timestamp)] |}.

(** [sendError(res, statusCode, message, code = 'UNKNOWN_ERROR', details = null)],
    lines 85 to 93.  An omitted or [undefined] argument is [None]. *)
Definition sendError (statusCode : Z) (message : string) (code : option string)
    (details : option Val) : M Response :=
  let* timestamp := Date_now_iso in
  ret {| res_status := statusCode;
         res_body := VObj [("success", VBool false);
                           ("error", VStr message);
                           ("code", VStr (default "UNKNOWN_ERROR" code));
                           ("details", default VNull details);
                           ("timestamp", VStr timestamp)] |}.

(** *** Middleware *)

Definition nonempty (x : option string) : option string :=
  match x with
  | Some s => if String.eqb s "" then None else Some s
  | None => None
  end.

(** [authenticateApiKey], lines 39 to 58: [None] stands for [next()], a
    response for the rejection of line 50. *)
Definition authenticateApiKey (req : Request) : option Response :=
  match nonempty (API_KEY rt) with
  | None => None
  | Some requiredApiKey =>
      let providedApiKey :=
        match nonempty (req_headers req "x-api-key") with
        | Some k => Some k
        | None => req_query req "apiKey"
        end in
      match nonempty providedApiKey with
      | Some k =>
          if String.eqb k requiredApiKey then None
          else Some {| res_status := 401;
                       res_body := VObj [("success", VBool false);
                                         ("error", VStr "Invalid or missing API key");
                                         ("code", VStr "INVALID_API_KEY")] |}
      | None =>
          Some {| res_status := 401;
                  res_body := VObj [("success", VBool false);
                                    ("error", VStr "Invalid or missing API key");
                                    ("code", VStr "INVALID_API_KEY")] |}
      end
  end.

(** [handleValidationErrors], lines 61 to 72. *)
Definition handleValidationErrors (req : Request) : option Response :=
  match req_validation req with
  | [] => None
  | errors =>
      Some {| res_status := 400;
              res_body := VObj [("success", VBool false);
                                ("error", VStr "Validation failed");
                                ("code", VStr "VALIDATION_ERROR");
                                ("details", VArr errors)] |}
  end.

(** A route: the key check, the validation, then the handler. *)
Definition route (handler : Request -> M Response) (req : Request) : M Response :=
  match authenticateApiKey req with
  | Some rejection => ret rejection
  | None =>
      match handleValidationErrors req with
      | Some rejection => ret rejection
      | None => handler req
      end
  end.

(** *** [GET /player/:userId], lines 146 to 198 *)

(** [Promise.allSettled([p1, p2])]: both calls are started, in this order,
    before either completes, and the wait ends when the slower one has
    settled. *)
Definition allSettled2 (p1 p2 : M Val) : M (Settled * Settled) :=
  fun w =>
    let '(r1, w1) := p1 w in
    let '(r2, w2) := p2 (at_time (now w) w1) in
    (Ok (settle r1, settle r2), at_time (Z.max (now w1) (now w2)) w2).

Definition default_thumbnail (userId : string) : string :=
  "https://www.roblox.com/headshot-thumbnail/image?userId=" +:+ userId.

(** Lines 164 to 167. *)
Definition friends_count (friendsData : Settled) : Res Val :=
  match friendsData with
  | Fulfilled value => get_prop value "count"
  | Rejected _ => Ok (VInt 0)
  end.

Definition avatar_thumbnail (userId : string) (avatarData : Settled) : M Val :=
  match avatarData with
  | Fulfilled value =>
      let* data := lift (get_prop value "data") in
      let* len := lift (get_prop data "length") in
      if js_gt0 len then
        let* data := lift (get_prop value "data") in
        let* first := lift (get_first data) in
        lift (get_prop first "imageUrl")
      else ret (VStr (default_thumbnail userId))
  | Rejected _ => ret (VStr (default_thumbnail userId))
  end.

(** [a || b] where [b] is only evaluated when [a] is falsy. *)
Definition or_else (a : Val) (b : M Val) : M Val :=
  if truthy a then ret a else b.

(** The object of lines 169 to 179, its members evaluated in order. *)
Definition player_profile (userId : string) (userInfo friendsCount avatarThumbnail : Val)
    : M Val :=
  let* name1 := lift (get_prop userInfo "displayName") in
  let* username := or_else name1 (lift (get_prop userInfo "name")) in
  let* displayName := lift (get_prop userInfo "displayName") in
  let* description := lift (get_prop userInfo "description") in
  let* created := lift (get_prop userInfo "created") in
  let* isBanned := lift (get_prop userInfo "isBanned") in
  let* hasVerifiedBadge := lift (get_prop userInfo "hasVerifiedBadge") in
  ret (VObj [("userId", number (parseInt userId));
             ("username", username);
             ("displayName", displayName);
             ("description", js_or description (VStr ""));
             ("created", created);
             ("isBanned", js_or isBanned (VBool false));
             ("friendsCount", friendsCount);
             ("avatarThumbnail", avatarThumbnail);
             ("hasVerifiedBadge", js_or hasVerifiedBadge (VBool false))]).

(** The object of lines 183 to 193. *)
Definition mock_player (userId : string) (friendsCount : Z) : Val :=
  VObj [("userId", number (parseInt userId));
        ("username", VStr ("Player" +:+ userId));
        ("displayName", VStr ("Player" +:+ userId));
        ("description", VStr "A Roblox player");
        ("created", VStr "2020-01-01T00:00:00.000Z");
        ("isBanned", VBool false);
        ("friendsCount", VInt friendsCount);
        ("avatarThumbnail",
         VStr ("https://www.roblox.com/headshot-thumbnail/image?userId=" +:+ userId
               +:+ "&width=150&height=150"));
        ("hasVerifiedBadge", VBool false)].

Definition player_handler (req : Request) : M Response :=
  try_catch
    (let userId := req_params req "userId" in
     let cacheKey := "player_" +:+ userId in
     try_catch
       (let* userInfo :=
          fetchFromRobloxAPI ("https://users.roblox.com/v1/users/" +:+ userId)
            (Some cacheKey) None in
        let* settled :=
          allSettled2
            (fetchFromRobloxAPI
               ("https://friends.roblox.com/v1/users/" +:+ userId +:+ "/friends/count")
               None None)
            (fetchFromRobloxAPI
               ("https://thumbnails.roblox.com/v1/users/avatar-headshot?userIds=" +:+ userId
                +:+ "&size=150x150&format=Png")
               None None) in
        let '(friendsData, avatarData) := settled in
        let* friendsCount := lift (friends_count friendsData) in
        let* avatarThumbnail := avatar_thumbnail userId avatarData in
        let* profile := player_profile userId userInfo friendsCount avatarThumbnail in
        sendResponse profile None)
       (fun apiError =>
          let* friendsCount := random_below 1000 in
          sendResponse (mock_player userId friendsCount) None))
    (fun error =>
       sendError 500 "Failed to fetch player data" (Some "PLAYER_FETCH_ERROR")
         (Some (VStr (exn_message error)))).

(** *** [GET /asset/:assetId], lines 366 to 395 *)

Definition asset_handler (req : Request) : M Response :=
  try_catch
    (let assetId := req_params req "assetId" in
     let* price := random_below 1000 in
     let* isLimited := random_above (8 # 10) in
     let* isLimitedUnique := random_above (95 # 100) in
     let* remaining := random_below 100 in
     let* sales := random_below 10000 in
     let* updated := Date_now_iso in
     sendResponse
       (VObj [("assetId", number (parseInt assetId));
              ("name", VStr ("Asset " +:+ assetId));
              ("description", VStr "A Roblox asset");
              ("assetType", VObj [("id", VInt 1); ("name", VStr "T-Shirt")]);
              ("creator", VObj [("id", VInt 1); ("name", VStr "Creator");
                                ("type", VStr "User")]);
              ("price", VInt price);
              ("isLimited", VBool isLimited);
              ("isLimitedUnique", VBool isLimitedUnique);
              ("remaining", VInt remaining);
              ("sales", VInt sales);
              ("created", VStr "2021-01-01T00:00:00.000Z");
              ("updated", VStr updated)])
       None)
    (fun error =>
       sendError 500 "Failed to fetch asset details" (Some "ASSET_FETCH_ERROR")
         (Some (VStr (exn_message error)))).

(** *** [GET /leaderboard/:gameId], lines 476 to 502 *)

(** The calls [f(undefined, i)], ..., [f(undefined, i + n - 1)] of
    [Array.from], in order. *)
Fixpoint map_indices (f : nat -> M Val) (n i : nat) : M (list Val) :=
  match n with
  | O => ret []
  | S n' =>
      let* x := f i in
      let* rest := map_indices f n' (S i) in
      ret (x :: rest)
  end.

(** [Array.from({ length: len }, f)] for an integer [len]: no element for
    a negative length, a [RangeError] above the largest array length. *)
Definition Array_from_length (len : Z) (f : nat -> M Val) : M (list Val) :=
  if 4294967295 <? len then throw (RangeError "Invalid array length")
  else map_indices f (Z.to_nat len) 0.

(** The callback of lines 482 to 491. *)
Definition leaderboard_entry (limit : Z) (i : nat) : M Val :=
  let rank := Z.of_nat i + 1 in
  let* id := random_below 1000000 in
  let* score := random_below 1000000 in
  let* thumbnail := random_below 1000000 in
  ret (VObj [("rank", VInt rank);
             ("player", VObj [("id", VInt id);
                              ("username", VStr ("Player" +:+ string_of_Z rank));
                              ("displayName", VStr ("Top Player " +:+ string_of_Z rank))]);
             ("score", VInt (score + (limit - Z.of_nat i) * 1000));
             ("avatarThumbnail",
              VStr ("https://www.roblox.com/headshot-thumbnail/image?userId="
                    +:+ string_of_Z thumbnail +:+ "&width=150&height=150"))]).

(** [parseInt(req.query.limit) || 50] *)
Definition leaderboard_limit (req : Request) : Z :=
  match parseInt_opt (req_query req "limit") with
  | Some z => if z =? 0 then 50 else z
  | None => 50
  end.

Definition leaderboard_handler (req : Request) : M Response :=
  try_catch
    (let gameId := req_params req "gameId" in
     let limit := leaderboard_limit req in
     let* leaderboard := Array_from_length limit (leaderboard_entry limit) in
     let* lastUpdated := Date_now_iso in
     sendResponse
       (VObj [("gameId", number (parseInt gameId));
              ("leaderboard", VArr leaderboard);
              ("totalEntries", VInt limit);
              ("lastUpdated", VStr lastUpdated)])
       None)
    (fun error =>
       sendError 500 "Failed to fetch leaderboard" (Some "LEADERBOARD_ERROR")
         (Some (VStr (exn_message error)))).

(** *** The handlers of lines 541 to 563 *)

Definition availableEndpoints : list Val :=
  [VStr "GET /health"; VStr "GET /player/:userId"; VStr "GET /game/:gameId/stats";
   VStr "GET /group/:groupId"; VStr "GET /avatar/:userId"; VStr "GET /asset/:assetId";
   VStr "GET /limited/:assetId"; VStr "GET /mutual/:userId/:otherUserId";
   VStr "GET /leaderboard/:gameId"; VStr "GET /events/latest"].

Definition not_found_handler : M Response :=
  sendError 404 "Endpoint not found" (Some "ENDPOINT_NOT_FOUND")
    (Some (VObj [("availableEndpoints", VArr availableEndpoints)])).

Definition global_error_handler (error : Exn) : M Response :=
  sendError 500 "Internal server error" (Some "INTERNAL_ERROR")
    (match NODE_ENV rt with
     | Some env =>
         if String.eqb env "development" then Some (VStr (exn_message error)) else None
     | None => None
     end).

(** The routes of lines 142, 362 and 471. *)
Definition get_player : Request -> M Response := route player_handler.
Definition get_asset : Request -> M Response := route asset_handler.
Definition get_leaderboard : Request -> M Response := route leaderboard_handler.

(** *** [GET /health], lines 132 to 139 *)

(** The handler, given the number of seconds that [process.uptime()]
    returns. *)
Definition health_handler (uptime : Q) : M Response :=
  let* timestamp := Date_now_iso in
  sendResponse
    (VObj [("status", VStr "OK");
           ("uptime", VNum uptime);
           ("timestamp", VStr timestamp);
           ("version", VStr "1.0.0")])
    (Some "API is healthy").

(** *** [GET /game/:gameId/stats], lines 206 to 264 *)

(** [v.data && v.data.length > 0], as the truth value of the condition. *)
Definition has_items (v : Val) : M bool :=
  let* data := lift (get_prop v "data") in
  if truthy data then
    let* data := lift (get_prop v "data") in
    let* len := lift (get_prop data "length") in
    ret (js_gt0 len)
  else ret false.

(** The object of lines 220 to 236, its members evaluated in order. *)
Definition game_stats (gameId : string) (game : Val) : M Val :=
  let* name := lift (get_prop game "name") in
  let* description := lift (get_prop game "description") in
  let* creator1 := lift (get_prop game "creator") in
  let* creator_id := lift (get_prop creator1 "id") in
  let* creator2 := lift (get_prop game "creator") in
  let* creator_name := lift (get_prop creator2 "name") in
  let* creator3 := lift (get_prop game "creator") in
  let* creator_type := lift (get_prop creator3 "type") in
  let* rootPlaceId := lift (get_prop game "rootPlaceId") in
  let* created := lift (get_prop game "created") in
  let* updated := lift (get_prop game "updated") in
  let* maxPlayers := lift (get_prop game "maxPlayers") in
  let* playing := lift (get_prop game "playing") in
  let* visits := lift (get_prop game "visits") in
  let* favoritedCount := lift (get_prop game "favoritedCount") in
  ret (VObj [("gameId", number (parseInt gameId));
             ("name", name);
             ("description", description);
             ("creator", VObj [("id", creator_id); ("name", creator_name);
                               ("type", creator_type)]);
             ("rootPlaceId", rootPlaceId);
             ("created", created);
             ("updated", updated);
             ("maxPlayers", maxPlayers);
             ("playing", playing);
             ("visits", visits);
             ("favoritedCount", favoritedCount)]).

(** The object of lines 242 to 259. *)
Definition mock_game (gameId : string) (visits likes dislikes favorites playing : Z)
    (updated : string) : Val :=
  VObj [("gameId", number (parseInt gameId));
        ("name", VStr ("Game " +:+ gameId));
        ("description", VStr "An awesome Roblox game!");
        ("creator", VObj [("id", VInt 1); ("name", VStr "GameDeveloper");
                          ("type", VStr "User")]);
        ("visits", VInt visits);
        ("likes", VInt likes);
        ("dislikes", VInt dislikes);
        ("favorites", VInt favorites);
        ("playing", VInt playing);
        ("maxPlayers", VInt 50);
        ("created", VStr "2021-01-01T00:00:00.000Z");
        ("updated", VStr updated)].

Definition game_stats_fallback (gameId : string) : M Response :=
  let* visits := random_below 1000000 in
  let* likes := random_below 50000 in
  let* dislikes := random_below 5000 in
  let* favorites := random_below 25000 in
  let* playing := random_below 10000 in
  let* updated := Date_now_iso in
  sendResponse (mock_game gameId visits likes dislikes favorites playing updated) None.

Definition game_stats_handler (req : Request) : M Response :=
  try_catch
    (let gameId := req_params req "gameId" in
     let cacheKey := "game_stats_" +:+ gameId in
     try_catch
       (let* gameData :=
          fetchFromRobloxAPI ("https://games.roblox.com/v1/games?universeIds=" +:+ gameId)
            (Some cacheKey) None in
        let* found := has_items gameData in
        if found then
          let* data := lift (get_prop gameData "data") in
          let* game := lift (get_first data) in
          let* stats := game_stats gameId game in
          sendResponse stats None
        else throw (Error "Game not found"))
       (fun apiError => game_stats_fallback gameId))
    (fun error =>
       sendError 500 "Failed to fetch game statistics" (Some "GAME_STATS_ERROR")
         (Some (VStr (exn_message error)))).

(** *** [GET /group/:groupId], lines 272 to 315 *)

(** The object of lines 283 to 293, its members evaluated in order. *)
Definition group_info (groupData : Val) : M Val :=
  let* id := lift (get_prop groupData "id") in
  let* name := lift (get_prop groupData "name") in
  let* description := lift (get_prop groupData "description") in
  let* owner := lift (get_prop groupData "owner") in
  let* shout := lift (get_prop groupData "shout") in
  let* memberCount := lift (get_prop groupData "memberCount") in
  let* isBuildersClubOnly := lift (get_prop groupData "isBuildersClubOnly") in
  let* publicEntryAllowed := lift (get_prop groupData "publicEntryAllowed") in
  let* hasVerifiedBadge := lift (get_prop groupData "hasVerifiedBadge") in
  ret (VObj [("id", id);
             ("name", name);
             ("description", description);
             ("owner", owner);
             ("shout", shout);
             ("memberCount", memberCount);
             ("isBuildersClubOnly", isBuildersClubOnly);
             ("publicEntryAllowed", publicEntryAllowed);
             ("hasVerifiedBadge", js_or hasVerifiedBadge (VBool false))]).

(** The object of lines 297 to 310. *)
Definition mock_group (groupId : string) (memberCount : Z) : Val :=
  VObj [("id", number (parseInt groupId));
        ("name", VStr ("Group " +:+ groupId));
        ("description", VStr "A cool Roblox group!");
        ("owner", VObj [("userId", VInt 1); ("username", VStr "GroupOwner");
                        ("displayName", VStr "Group Owner")]);
        ("memberCount", VInt memberCount);
        ("isBuildersClubOnly", VBool false);
        ("publicEntryAllowed", VBool true);
        ("hasVerifiedBadge", VBool false)].

Definition group_url (groupId : string) : string :=
  "https://groups.roblox.com/v1/groups/" +:+ groupId.

Definition group_handler (req : Request) : M Response :=
  try_catch
    (let groupId := req_params req "groupId" in
     let cacheKey := "group_" +:+ groupId in
     try_catch
       (let* groupData := fetchFromRobloxAPI (group_url groupId) (Some cacheKey) None in
        let* info := group_info groupData in
        sendResponse info None)
       (fun apiError =>
          let* memberCount := random_below 10000 in
          sendResponse (mock_group groupId memberCount) None))
    (fun error =>
       sendError 500 "Failed to fetch group information" (Some "GROUP_FETCH_ERROR")
         (Some (VStr (exn_message error)))).

(** *** [GET /avatar/:userId], lines 324 to 358 *)

(** [s.split(sep)] for a separator of one character. *)
Fixpoint split_on (sep : ascii) (s : string) : list string :=
  match s with
  | EmptyString => [EmptyString]
  | String c rest =>
      if Ascii.eqb c sep then EmptyString :: split_on sep rest
      else match split_on sep rest with
           | part :: parts => String c part :: parts
           | [] => [String c EmptyString]
           end
  end.

(** [${parts[i]}]: a missing element prints as [undefined]. *)
Definition part_text (parts : list string) (i : nat) : string :=
  match nth_error parts i with
  | Some part => part
  | None => "undefined"
  end.

(** [req.query.size || '150x150'] *)
Definition avatar_size (req : Request) : string :=
  match nonempty (req_query req "size") with
  | Some size => size
  | None => "150x150"
  end.

Definition avatar_key (userId size : string) : string :=
  "avatar_" +:+ userId +:+ "_" +:+ size.

(** The URL of line 350. *)
Definition fallback_image (userId size : string) : string :=
  "https://www.roblox.com/headshot-thumbnail/image?userId=" +:+ userId
  +:+ "&width=" +:+ part_text (split_on "x" size) 0
  +:+ "&height=" +:+ part_text (split_on "x" size) 1.

Definition avatar_handler (req : Request) : M Response :=
  try_catch
    (let userId := req_params req "userId" in
     let size := avatar_size req in
     let cacheKey := avatar_key userId size in
     try_catch
       (let* avatarData :=
          fetchFromRobloxAPI
            ("https://thumbnails.roblox.com/v1/users/avatar-headshot?userIds=" +:+ userId
             +:+ "&size=" +:+ size +:+ "&format=Png")
            (Some cacheKey) None in
        let* found := has_items avatarData in
        if found then
          let* data1 := lift (get_prop avatarData "data") in
          let* first1 := lift (get_first data1) in
          let* imageUrl := lift (get_prop first1 "imageUrl") in
          let* data2 := lift (get_prop avatarData "data") in
          let* first2 := lift (get_first data2) in
          let* state := lift (get_prop first2 "state") in
          sendResponse
            (VObj [("userId", number (parseInt userId));
                   ("imageUrl", imageUrl);
                   ("state", state);
                   ("size", VStr size)])
            None
        else throw (Error "Avatar not found"))
       (fun apiError =>
          sendResponse
            (VObj [("userId", number (parseInt userId));
                   ("imageUrl", VStr (fallback_image userId size));
                   ("state", VStr "Completed");
                   ("size", VStr size)])
            None))
    (fun error =>
       sendError 500 "Failed to fetch avatar" (Some "AVATAR_FETCH_ERROR")
         (Some (VStr (exn_message error)))).

(** *** [GET /limited/:assetId], lines 403 to 437 *)

(** [Date.now()] *)
Definition Date_now : M Z := fun w => (Ok (now w), w).

(** The time value of [new Date(t)]: the fraction of a millisecond is
    dropped, towards zero. *)
Definition time_clip (t : Q) : Z :=
  if Qle_bool 0 t then Qfloor t else Qceiling t.

(** The callback of lines 408 to 417. *)
Definition limited_sale (i : nat) : M Val :=
  let* userAssetId := random_below 1000000 in
  let* seller := random_below 100000 in
  let* price := random_below 10000 in
  let* t := Date_now in
  let* r := Math_random in
  ret (VObj [("userAssetId", VInt userAssetId);
             ("seller", VObj [("id", VInt seller);
                              ("name", VStr ("Seller" +:+ string_of_Z (Z.of_nat i + 1)))]);
             ("price", VInt (price + 100));
             ("serialNumber", VInt (Z.of_nat i + 1));
             ("dateTime",
              VStr (toISOString rt (time_clip (inject_Z t - r * inject_Z 2592000000))))]).

(** The callback of lines 424 to 427. *)
Definition price_point (sale : Val) : Val :=
  VObj [("value", own_property_of sale "price");
        ("date", own_property_of sale "dateTime")].

(** The callback of lines 428 to 431. *)
Definition volume_point (i : nat) : M Val :=
  let* value := random_below 50 in
  let* t := Date_now in
  ret (VObj [("value", VInt value);
             ("date", VStr (toISOString rt (t - Z.of_nat i * 86400000)))]).

Definition limited_handler (req : Request) : M Response :=
  try_catch
    (let assetId := req_params req "assetId" in
     let* sales := Array_from_length 10 limited_sale in
     let* recentAveragePrice := random_below 5000 in
     let* originalPrice := random_below 1000 in
     let* volumeDataPoints := Array_from_length 30 volume_point in
     sendResponse
       (VObj [("assetId", number (parseInt assetId));
              ("name", VStr ("Limited Item " +:+ assetId));
              ("recentAveragePrice", VInt (recentAveragePrice + 500));
              ("originalPrice", VInt (originalPrice + 100));
              ("priceDataPoints", VArr (List.map price_point sales));
              ("volumeDataPoints", VArr volumeDataPoints);
              ("recentSales", VArr sales)])
       None)
    (fun error =>
       sendError 500 "Failed to fetch limited item data" (Some "LIMITED_FETCH_ERROR")
         (Some (VStr (exn_message error)))).

(** *** [GET /mutual/:userId/:otherUserId], lines 446 to 467 *)

(** The callback of lines 451 to 456. *)
Definition mutual_friend (i : nat) : M Val :=
  let* id := random_below 1000000 in
  let* avatar := random_below 1000000 in
  ret (VObj [("id", VInt id);
             ("username", VStr ("MutualFriend" +:+ string_of_Z (Z.of_nat i + 1)));
             ("displayName", VStr ("Mutual Friend " +:+ string_of_Z (Z.of_nat i + 1)));
             ("avatarThumbnail",
              VStr ("https://www.roblox.com/headshot-thumbnail/image?userId="
                    +:+ string_of_Z avatar +:+ "&width=150&height=150"))]).

Definition mutual_handler (req : Request) : M Response :=
  try_catch
    (let userId := req_params req "userId" in
     let otherUserId := req_params req "otherUserId" in
     let* count := random_below 20 in
     let* mutualFriends := Array_from_length count mutual_friend in
     sendResponse
       (VObj [("userId", number (parseInt userId));
              ("otherUserId", number (parseInt otherUserId));
              ("mutualFriendsCount", VInt (Z.of_nat (List.length mutualFriends)));
              ("mutualFriends", VArr mutualFriends)])
       None)
    (fun error =>
       sendError 500 "Failed to fetch mutual friends" (Some "MUTUAL_FRIENDS_ERROR")
         (Some (VStr (exn_message error)))).

(** *** [GET /events/latest], lines 510 to 537 *)

Definition event_types : list string := ["Featured"; "Social"; "Building"; "Sponsored"].

(** [event_types[i]] *)
Definition event_type (i : Z) : Val :=
  if i <? 0 then VUndef
  else match nth_error event_types (Z.to_nat i) with
       | Some name => VStr name
       | None => VUndef
       end.

(** The callback of lines 515 to 527. *)
Definition latest_event (i : nat) : M Val :=
  let id := Z.of_nat i + 1 in
  let* t1 := Date_now in
  let* r1 := Math_random in
  let* t2 := Date_now in
  let* r2 := Math_random in
  let* type := random_below 4 in
  let* badge := random_below 1000000 in
  let* image := random_below 1000000 in
  ret (VObj [("id", VInt id);
             ("name", VStr ("Event " +:+ string_of_Z id));
             ("description", VStr ("Description for Event " +:+ string_of_Z id));
             ("startDate",
              VStr (toISOString rt (time_clip (inject_Z t1 + r1 * inject_Z 2592000000))));
             ("endDate",
              VStr (toISOString rt (time_clip (inject_Z t2 + r2 * inject_Z 5184000000))));
             ("eventType", event_type type);
             ("badge", VObj [("id", VInt badge);
                             ("name", VStr ("Event Badge " +:+ string_of_Z id));
                             ("imageUrl",
                              VStr ("https://www.roblox.com/badge-thumbnail/image?badgeId="
                                    +:+ string_of_Z image))])]).

(** [parseInt(req.query.limit) || 10] *)
Definition events_limit (req : Request) : Z :=
  match parseInt_opt (req_query req "limit") with
  | Some z => if z =? 0 then 10 else z
  | None => 10
  end.

Definition events_handler (req : Request) : M Response :=
  try_catch
    (let limit := events_limit req in
     let* events := Array_from_length limit latest_event in
     let* lastUpdated := Date_now_iso in
     sendResponse
       (VObj [("events", VArr events);
              ("count", VInt (Z.of_nat (List.length events)));
              ("lastUpdated", VStr lastUpdated)])
       None)
    (fun error =>
       sendError 500 "Failed to fetch events" (Some "EVENTS_FETCH_ERROR")
         (Some (VStr (exn_message error)))).

(** The routes of lines 202, 268, 319, 399, 441 and 506. *)
Definition get_game_stats : Request -> M Response := route game_stats_handler.
Definition get_group : Request -> M Response := route group_handler.
Definition get_avatar : Request -> M Response := route avatar_handler.
Definition get_limited : Request -> M Response := route limited_handler.
Definition get_mutual : Request -> M Response := route mutual_handler.
Definition get_events : Request -> M Response := route events_handler.

(** *** Worlds the server can be in *)

(** The world after the outbound call of a fetch, when the call is made
    in the world [w1] (which differs from [w] by cache reads only). *)
Definition after_call (url : string) (w w1 : World) : World :=
  elapse (latency (next_reply url w)) (record (HttpGet url roblox_config) w1).

(** The worlds reached from a start with an empty table by calls of the
    helper, the passing of time and random draws: nothing else writes the
    table, which is private to the module. *)
Inductive reachable : World -> Prop :=
| reach_start (t0 : Z) : reachable (initial_world t0)
| reach_fetch (w : World) (url : string) (cacheKey : option string) (ttl : option Z) :
    reachable w -> reachable (fetchFromRobloxAPI url cacheKey ttl w).2
| reach_elapse (w : World) (d : N) : reachable w -> reachable (elapse d w)
| reach_draw (w : World) : reachable w -> reachable (drawn w).

(** The call is not answered from the cache. *)
Definition misses (cacheKey : option string) (w : World) : Prop :=
  forall k, truthy_key cacheKey = Some k -> table_has (cache w) (now w) k = false.

(** *** The error taxonomy of the specification *)

(** The error kinds of section 7 of the specification. *)
Inductive ErrorKind : Type :=
| UpstreamUnreachable
| Timeout
| UpstreamError (statusCode : Z)
| MalformedResponse.

(** The category of a failed outbound call, in the words of the
    specification, read off the rejection that axios produces: a response
    with a status is an upstream error, the code [ECONNABORTED] marks the
    expiry of the request timeout, [ERR_BAD_RESPONSE] a body that could
    not be decoded, and everything else a request that never completed. *)
Definition failure_category (e : Exn) : ErrorKind :=
  match exn_response e with
  | Some r => UpstreamError (resp_status r)
  | None =>
      match exn_code e with
      | Some c =>
          if String.eqb c "ECONNABORTED" then Timeout
          else if String.eqb c "ERR_BAD_RESPONSE" then MalformedResponse
          else UpstreamUnreachable
      | None => UpstreamUnreachable
      end
  end.

End Server.

(** The claim that the error raised by a failed fetch tells the category
    of the failure: some reading of the thrown value gives, for every
    rejected outbound call, the category of that rejection. *)
Definition errors_identify_category : Prop :=
  exists kind_of : Exn -> ErrorKind,
    forall (rt : Runtime) (w : World) (url : string) (cacheKey : option string)
           (ttl : option Z) (e : Exn),
      misses cacheKey w ->
      outcome (next_reply rt url w) = Reject e ->
      exists x, (fetchFromRobloxAPI rt url cacheKey ttl w).1 = Throw x
                /\ kind_of x = failure_category e.

(** ** Scenarios *)

(** A runtime around a given upstream and API key. *)
Definition runtime_of (up : string -> nat -> Reply) (key : option string) : Runtime :=
  {| upstream := up;
     random_bits := fun n => N.of_nat n;
     API_KEY := key;
     NODE_ENV := None;
     toISOString := fun _ => "2024-01-15T10:30:00.000Z";
     ToNumber_builtin := fun _ => VNaN |}.

Definition ok_response (v : Val) : HttpResponse :=
  {| resp_status := 200; resp_statusText := "OK"; resp_data := v |}.

(** An upstream that answers every call with the same document after 20 ms. *)
Definition upstream_resolving (v : Val) : string -> nat -> Reply :=
  fun _ _ => {| latency := 20; outcome := Resolve (ok_response v) |}.

(** An upstream whose calls are all rejected with the same error. *)
Definition upstream_rejecting (d : N) (e : Exn) : string -> nat -> Reply :=
  fun _ _ => {| latency := d; outcome := Reject e |}.

(** The rejections that axios produces when the 10 s timeout expires and
    when the connection is refused. *)
Definition timed_out : Exn :=
  AxiosError "timeout of 10000ms exceeded" (Some "ECONNABORTED") true None.

Definition refused : Exn :=
  AxiosError "connect ECONNREFUSED 127.0.0.1:443" (Some "ECONNREFUSED") true None.

(** ** The failures that the specification lists *)

(** The ways in which, by the specification, an outbound call fails. *)
Inductive UpstreamFailure : Type :=
| NetworkError
| TimeoutExpired
| NonSuccessStatus (status : Z) (statusText : string)
| UnparseableBody (raw : string).

(** How the promise of [axios.get] settles under each of them, with the
    defaults of axios, which the call of line 103 leaves in place: an
    unreachable upstream, an expired timeout and a status outside 2xx
    reject; a 2xx reply whose body is not JSON resolves, its raw text
    being the data of the response. *)
Definition axios_settles (f : UpstreamFailure) : Outcome :=
  match f with
  | NetworkError => Reject refused
  | TimeoutExpired => Reject timed_out
  | NonSuccessStatus status statusText =>
      Reject (AxiosError ("Request failed with status code " +:+ string_of_Z status)
                (Some "ERR_BAD_RESPONSE") true
                (Some {| resp_status := status; resp_statusText := statusText;
                         resp_data := VNull |}))
  | UnparseableBody raw =>
      Resolve {| resp_status := 200; resp_statusText := "OK"; resp_data := VStr raw |}
  end.

(** The claim that no failure of the outbound call writes the table: for
    a call with a key, each failure of the list leaves the table as it
    was. *)
Definition failures_keep_cache : Prop :=
  forall (rt : Runtime) (w : World) (url k : string) (ttl : option Z) (f : UpstreamFailure),
    k <> "" ->
    outcome (next_reply rt url w) = axios_settles f ->
    cache (fetchFromRobloxAPI rt url (Some k) ttl w).2 = cache w.

(** An upstream whose every call fails in the given way, 20 ms later. *)
Definition upstream_failing (f : UpstreamFailure) : string -> nat -> Reply :=
  fun _ _ => {| latency := 20; outcome := axios_settles f |}.

Definition profile_A : Val := VObj [("name", VStr "A")].
Definition profile_B : Val := VObj [("name", VStr "B")].

(** The three upstream documents of [GET /player/1] and an upstream that
    serves them, with the given document for the thumbnails. *)
Definition user_info_1 : Val :=
  VObj [("id", VInt 1); ("name", VStr "Roblox"); ("displayName", VStr "Roblox");
        ("description", VStr "The official Roblox account");
        ("created", VStr "2006-02-27T21:06:40.3Z");
        ("isBanned", VBool false); ("hasVerifiedBadge", VBool true)].

Definition friends_count_1 : Val := VObj [("count", VInt 1247)].

Definition upstream_player (thumbnails : Val) : string -> nat -> Reply :=
  fun url _ =>
    {| latency := 20;
       outcome :=
         Resolve (ok_response
           (if String.eqb url "https://users.roblox.com/v1/users/1" then user_info_1
            else if String.eqb url "https://friends.roblox.com/v1/users/1/friends/count"
                 then friends_count_1
                 else thumbnails)) |}.

(** The rejection that axios produces for a reply with the status 503. *)
Definition status_503 : Exn :=
  AxiosError "Request failed with status code 503" (Some "ERR_BAD_RESPONSE") true
    (Some {| resp_status := 503; resp_statusText := "Service Unavailable";
             resp_data := VNull |}).

(** An upstream that is reconfigured after its first reply. *)
Definition upstream_A_then_B : string -> nat -> Reply :=
  fun _ n =>
    {| latency := 20;
       outcome := Resolve (ok_response (match n with O => profile_A | S _ => profile_B end)) |}.

(** The world after [fetch("https://upstream/x", "player_1", 300)] at time 0. *)
Definition world_after_first_fetch : World :=
  (fetchFromRobloxAPI (runtime_of upstream_A_then_B None) "https://upstream/x"
     (Some "player_1") (Some 300) (initial_world 0)).2.

(** A request for the user 1 whose validation recorded an error. *)
Definition request_invalid : Request :=
  {| req_params := fun _ => "abc";
     req_query := fun _ => None;
     req_headers := fun _ => None;
     req_validation := [VObj [("msg", VStr "User ID must be numeric")]] |}.

(** A request for the user 1, without any API key, that passed validation. *)
Definition request_1 : Request :=
  {| req_params := fun _ => "1";
     req_query := fun _ => None;
     req_headers := fun _ => None;
     req_validation := [] |}.

(** ** The response envelope *)

(** A member whose value is [undefined] is left out of the JSON text. *)
Definition is_present (v : Val) : bool :=
  match v with
  | VUndef => false
  | _ => true
  end.

(** The envelope that every response body should have: a boolean
    [success] and a string [timestamp], with [message] and [data] on
    success and [error] and [code] otherwise. *)
Definition well_formed_envelope (body : Val) : bool :=
  match body with
  | VObj props =>
      match own_property props "success", own_property props "timestamp" with
      | VBool true, VStr _ =>
          is_present (own_property props "message") && is_present (own_property props "data")
      | VBool false, VStr _ =>
          is_present (own_property props "error") && is_present (own_property props "code")
      | _, _ => false
      end
  | _ => false
  end.

(** ** What a handler does, as predicates on computations *)

(** The computation always sends a response, and the response has [P]. *)
Definition result_is (P : Response -> Prop) (m : M Response) : Prop :=
  forall w, exists r w', m w = (Ok r, w') /\ P r.

(** When the computation returns a value, the value has [Q]. *)
Definition returns {A} (Q : A -> Prop) (m : M A) : Prop :=
  forall w, match (m w).1 with Ok a => Q a | Throw _ => True end.

Definition enveloped (r : Response) : Prop :=
  well_formed_envelope (res_body r) = true.

(** A success response: status 200, [success: true], well formed. *)
Definition success_200 (r : Response) : Prop :=
  res_status r = 200 /\ own_property_of (res_body r) "success" = VBool true /\ enveloped r.

(** The computation neither calls the upstream nor touches the table,
    and takes no time. *)
Definition quiet {A} (m : M A) : Prop :=
  forall w, trace (m w).2 = trace w /\ cache (m w).2 = cache w /\ now (m w).2 = now w.

(** The [data] member of the body of a response. *)
Definition response_data (r : Res Response) : Val :=
  match r with
  | Ok resp => own_property_of (res_body resp) "data"
  | Throw _ => VUndef
  end.

(** The body and status of line 50. *)
Definition key_rejection : Response :=
  {| res_status := 401;
     res_body := VObj [("success", VBool false);
                       ("error", VStr "Invalid or missing API key");
                       ("code", VStr "INVALID_API_KEY")] |}.

(** The key that the request presents: the header when it is not empty,
    the query parameter otherwise. *)
Definition presented_key (req : Request) : option string :=
  match nonempty (req_headers req "x-api-key") with
  | Some k => Some k
  | None => nonempty (req_query req "apiKey")
  end.

(** Whether a call is answered from the cache. *)
Definition answered_from_cache (cacheKey : option string) (w : World) : bool :=
  match truthy_key cacheKey with
  | Some k => table_has (cache w) (now w) k
  | None => false
  end.

(** The characters of a string. *)
Fixpoint has_char (c : ascii) (s : string) : bool :=
  match s with
  | EmptyString => false
  | String c' rest => Ascii.eqb c' c || has_char c rest
  end.

(** The key under which an effect reads or writes the table. *)
Definition event_key (e : Event) : option string :=
  match e with
  | CacheHas k | CacheGet k | CacheSet k _ _ => Some k
  | HttpGet _ _ => None
  end.

Definition touched_keys (tr : list Event) : list string := omap event_key tr.

(** The keys under which the run of [m] from [w] reads or writes the
    table, in the order of the accesses. *)
Definition keys_used {A} (m : M A) (w : World) : list string :=
  touched_keys (drop (length (trace w)) (trace (m w).2)).

(** Every run of [m] accesses the table, under the key [k] and under no
    other, and leaves the entries of the other keys as they were. *)
Definition uses_only_key {A} (m : M A) (k : string) : Prop :=
  forall w,
    keys_used m w <> [] /\
    Forall (eq k) (keys_used m w) /\
    forall k', k' <> k -> cache (m w).2 !! k' = cache w !! k'.

(** No key is used both by a run of [m1] and by a run of [m2]. *)
Definition share_no_key {A B} (m1 : M A) (m2 : M B) : Prop :=
  forall w1 w2 k, k ∈ keys_used m1 w1 -> k ∈ keys_used m2 w2 -> False.

(** Some key is used by a run of [m1] and by a run of [m2]. *)
Definition share_a_key {A B} (m1 : M A) (m2 : M B) : Prop :=
  exists w1 w2 k, k ∈ keys_used m1 w1 /\ k ∈ keys_used m2 w2.

(** A run of [m] extends the effects performed; what it adds accesses
    the table under [k] only (at least once when [must] is set), and the
    entries of the other keys are left as they were. *)
Definition keyed {A} (must : bool) (k : string) (m : M A) : Prop :=
  forall w, exists tr,
    trace (m w).2 = trace w ++ tr /\
    (must = true -> touched_keys tr <> []) /\
    Forall (eq k) (touched_keys tr) /\
    forall k', k' <> k -> cache (m w).2 !! k' = cache w !! k'.

(** What the entry of rank [i + 1] of a leaderboard looks like. *)
Definition ranked (limit : Z) (i : nat) (e : Val) : Prop :=
  own_property_of e "rank" = VInt (Z.of_nat i + 1) /\
  exists score,
    own_property_of e "score" = VInt score /\
    (limit - Z.of_nat i) * 1000 <= score < (limit - Z.of_nat i) * 1000 + 1000000.

(** What the sale at the index [i] of the market data looks like. *)
Definition listed_sale (i : nat) (e : Val) : Prop :=
  own_property_of e "serialNumber" = VInt (Z.of_nat i + 1) /\
  exists price, own_property_of e "price" = VInt price /\ 100 <= price < 10100.

Definition volume_entry (i : nat) (e : Val) : Prop :=
  exists value, own_property_of e "value" = VInt value /\ 0 <= value < 50.

Definition named_friend (i : nat) (e : Val) : Prop :=
  own_property_of e "username" = VStr ("MutualFriend" +:+ string_of_Z (Z.of_nat i + 1)).

Definition typed_event (i : nat) (e : Val) : Prop :=
  own_property_of e "id" = VInt (Z.of_nat i + 1) /\
  exists name, In name event_types /\ own_property_of e "eventType" = VStr name.

(** The targets of the game and player handlers. *)
Definition game_url (gameId : string) : string :=
  "https://games.roblox.com/v1/games?universeIds=" +:+ gameId.

Definition users_url (userId : string) : string :=
  "https://users.roblox.com/v1/users/" +:+ userId.

Definition friends_url (userId : string) : string :=
  "https://friends.roblox.com/v1/users/" +:+ userId +:+ "/friends/count".

Definition headshot_url (userId size : string) : string :=
  "https://thumbnails.roblox.com/v1/users/avatar-headshot?userIds=" +:+ userId
  +:+ "&size=" +:+ size +:+ "&format=Png".

(** A request with the parameter 42 and the limit 25, and an upstream
    that answers every call with the given document. *)
Definition request_42 : Request :=
  {| req_params := fun _ => "42";
     req_query := fun name => if String.eqb name "limit" then Some "25" else None;
     req_headers := fun _ => None;
     req_validation := [] |}.

Definition group_7 : Val :=
  VObj [("id", VInt 7); ("name", VStr "Builders"); ("memberCount", VInt 12)].

Definition no_game : Val := VObj [("data", VArr [])].

(** An upstream that serves the user info and rejects every other call. *)
Definition upstream_users_only : string -> nat -> Reply :=
  fun url _ =>
    {| latency := 20;
       outcome :=
         if String.eqb url "https://users.roblox.com/v1/users/1"
         then Resolve (ok_response user_info_1) else Reject status_503 |}.

(** * Properties of the gateway *)

Section GatewayProperties.

Context (rt : Runtime).

Lemma outbound_calls_app (tr1 tr2 : list Event) :
  outbound_calls (tr1 ++ tr2) = outbound_calls tr1 ++ outbound_calls tr2.
Proof. unfold outbound_calls. apply List.filter_app. Qed.

(** The helper as one case analysis: on the key, on the table, on the
    way the outbound call settles. *)
Lemma fetch_unfold (url : string) (cacheKey : option string) (ttl : option Z) (w : World) :
  fetchFromRobloxAPI rt url cacheKey ttl w =
  match truthy_key cacheKey with
  | Some k =>
      if table_has (cache w) (now w) k then
        (Ok (table_get (cache w) (now w) k), record (CacheGet k) (record (CacheHas k) w))
      else
        let w2 := after_call rt url w (record (CacheHas k) w) in
        match outcome (next_reply rt url w) with
        | Resolve resp =>
            (Ok (resp_data resp),
             record (CacheSet k (resp_data resp) (default 300 ttl))
               (with_cache
                  (table_set (cache w2) (now w2) k (resp_data resp) (default 300 ttl)) w2))
        | Reject e => (Throw (rethrow e), w2)
        end
  | None =>
      let w2 := after_call rt url w w in
      match outcome (next_reply rt url w) with
      | Resolve resp => (Ok (resp_data resp), w2)
      | Reject e => (Throw (rethrow e), w2)
      end
  end.
Proof.
  unfold fetchFromRobloxAPI, try_catch, bind, after_call, next_reply.
  destruct (truthy_key cacheKey) as [k|]; simpl.
  - destruct (table_has (cache w) (now w) k) eqn:Hhas; simpl; [reflexivity|].
    unfold axios_get, next_reply; simpl.
    rewrite outbound_calls_app, List.app_nil_r.
    destruct (outcome _); reflexivity.
  - unfold axios_get, next_reply.
    destruct (outcome _); reflexivity.
Qed.

(** What a call leaves in the table: either nothing changed, or the
    entry of its own truthy key was written. *)
Lemma fetch_cache_effect (url : string) (cacheKey : option string) (ttl : option Z)
    (w : World) :
  let w' := (fetchFromRobloxAPI rt url cacheKey ttl w).2 in
  (cache w' = cache w /\ exists tr, trace w' = trace w ++ tr)
  \/ exists k v, truthy_key cacheKey = Some k /\
       cache w' = table_set (cache w) (now w') k v (default 300 ttl) /\
       exists tr, trace w' = trace w ++ tr ++ [CacheSet k v (default 300 ttl)].
Proof.
  rewrite fetch_unfold.
  destruct (truthy_key cacheKey) as [k|] eqn:Hk.
  - destruct (table_has (cache w) (now w) k).
    + left. split; [reflexivity|].
      exists [CacheHas k; CacheGet k]. simpl. by rewrite <- List.app_assoc.
    + cbv zeta. destruct (outcome (next_reply rt url w)) as [resp|e].
      * right. exists k, (resp_data resp). split; [reflexivity|]. split; [reflexivity|].
        exists [CacheHas k; HttpGet url roblox_config]. simpl.
        by rewrite <- !List.app_assoc.
      * left. split; [reflexivity|].
        exists [CacheHas k; HttpGet url roblox_config]. simpl.
        by rewrite <- List.app_assoc.
  - cbv zeta. destruct (outcome (next_reply rt url w)); left;
      (split; [reflexivity | exists [HttpGet url roblox_config]; reflexivity]).
Qed.

Lemma truthy_key_nonempty (cacheKey : option string) (k : string) :
  truthy_key cacheKey = Some k -> cacheKey = Some k /\ k <> "".
Proof.
  destruct cacheKey as [k'|]; simpl; [|discriminate].
  destruct (String.eqb k' "") eqn:E; [discriminate|].
  intros [= ->]. split; [reflexivity|]. by apply String.eqb_neq.
Qed.

Lemma truthy_key_some (k : string) : k <> "" -> truthy_key (Some k) = Some k.
Proof. intros Hk. simpl. apply String.eqb_neq in Hk. by rewrite Hk. Qed.

(** In every reachable world the table has no entry under the empty key,
    and every entry was written by a call made with that key. *)
Lemma reachable_table (w : World) :
  reachable rt w ->
  cache w !! "" = None /\
  forall k e, cache w !! k = Some e ->
    exists ttl, In (CacheSet k (entry_value e) ttl) (trace w).
Proof.
  induction 1 as [t0| w url cacheKey ttl Hw [IH1 IH2] | w d Hw IH | w Hw IH].
  - split; [reflexivity|]. intros k e. simpl. by rewrite lookup_empty.
  - destruct (fetch_cache_effect url cacheKey ttl w)
      as [[Hc [tr Htr]]|(k & v & Hk & Hc & tr & Htr)].
    + rewrite Hc. split; [exact IH1|]. intros k e He.
      destruct (IH2 k e He) as [t Ht]. exists t. rewrite Htr.
      apply List.in_or_app. by left.
    + apply truthy_key_nonempty in Hk as [_ Hne].
      rewrite Hc. unfold table_set. split.
      * rewrite lookup_insert_ne; [exact IH1 | exact Hne].
      * intros k' e. rewrite Htr.
        destruct (decide (k = k')) as [<-|Hkk'].
        -- rewrite lookup_insert_eq. intros [= <-]. simpl.
           exists (default 300 ttl). rewrite List.app_assoc.
           apply List.in_or_app. right. by left.
        -- rewrite lookup_insert_ne; [|exact Hkk']. intros He.
           destruct (IH2 k' e He) as [t Ht]. exists t.
           apply List.in_or_app. by left.
  - exact IH.
  - exact IH.
Qed.

(** C1: in every world that calls of the helper can reach, when the key
    is provided and a non-expired entry exists for it, the call returns
    the value of that entry (a value that an earlier call for this key
    stored), makes no outbound call and leaves the table as it was,
    whatever the target is. *)
Theorem cache_hit_returns_entry (w : World) (url k : string) (ttl : option Z)
    (e : CacheEntry) :
  reachable rt w ->
  cache w !! k = Some e ->
  live (now w) e = true ->
  (fetchFromRobloxAPI rt url (Some k) ttl w).1 = Ok (entry_value e) /\
  outbound_calls (trace (fetchFromRobloxAPI rt url (Some k) ttl w).2)
    = outbound_calls (trace w) /\
  cache (fetchFromRobloxAPI rt url (Some k) ttl w).2 = cache w /\
  exists ttl0, In (CacheSet k (entry_value e) ttl0) (trace w).
Proof.
  intros Hw He Hlive.
  destruct (reachable_table w Hw) as [Hempty Hprov].
  assert (Hk : k <> "") by (intros ->; congruence).
  rewrite fetch_unfold, (truthy_key_some k Hk).
  unfold table_has, table_get. rewrite He, Hlive. simpl.
  repeat split.
  - by rewrite !outbound_calls_app, !List.app_nil_r.
  - exact (Hprov k e He).
Qed.

(** The empty string is a falsy key: the call goes to the upstream as if
    no key had been given. *)
Lemma fetch_empty_key (url : string) (ttl : option Z) (w : World) :
  fetchFromRobloxAPI rt url (Some "") ttl w = fetchFromRobloxAPI rt url None ttl w.
Proof. by rewrite !fetch_unfold. Qed.

(** A call that throws has not written the table. *)
Lemma throw_keeps_cache (url : string) (cacheKey : option string) (ttl : option Z)
    (w w' : World) (x : Exn) :
  fetchFromRobloxAPI rt url cacheKey ttl w = (Throw x, w') -> cache w' = cache w.
Proof.
  rewrite fetch_unfold.
  destruct (truthy_key cacheKey) as [k|].
  - destruct (table_has (cache w) (now w) k); [discriminate|].
    cbv zeta. destruct (outcome (next_reply rt url w)); [discriminate|].
    by intros [= _ <-].
  - cbv zeta. destruct (outcome (next_reply rt url w)); [discriminate|].
    by intros [= _ <-].
Qed.

(** C2, as amended: when the outbound call of a fetch is rejected,
    whatever the rejection (an unreachable upstream, an expired timeout,
    a status outside 2xx), the table after the call is the table before
    it. *)
Theorem failed_fetch_keeps_cache (w : World) (url : string) (cacheKey : option string)
    (ttl : option Z) (e : Exn) :
  outcome (next_reply rt url w) = Reject e ->
  cache (fetchFromRobloxAPI rt url cacheKey ttl w).2 = cache w.
Proof.
  intros Hrej. rewrite fetch_unfold, Hrej.
  destruct (truthy_key cacheKey) as [k|]; [|reflexivity].
  by destruct (table_has (cache w) (now w) k).
Qed.

(** C3, as amended: a fetch whose outbound call is rejected throws a plain
    [Error] and returns no value; its message is built from the status when
    the rejection carries a response, is the fixed connection message when
    a request was sent and nothing came back, and quotes the message of
    the rejection otherwise. *)
Theorem failed_fetch_raises (w : World) (url : string) (cacheKey : option string)
    (ttl : option Z) (e : Exn) :
  misses cacheKey w ->
  outcome (next_reply rt url w) = Reject e ->
  (fetchFromRobloxAPI rt url cacheKey ttl w).1 =
    Throw (Error
      match exn_response e with
      | Some r =>
          "Roblox API error: " +:+ string_of_Z (resp_status r) +:+ " - "
            +:+ resp_statusText r
      | None =>
          if exn_request e then "Failed to connect to Roblox API"
          else "Request error: " +:+ exn_message e
      end).
Proof.
  intros Hmiss Hrej. rewrite fetch_unfold, Hrej.
  assert (Hre : rethrow e = Error
      match exn_response e with
      | Some r =>
          "Roblox API error: " +:+ string_of_Z (resp_status r) +:+ " - "
            +:+ resp_statusText r
      | None =>
          if exn_request e then "Failed to connect to Roblox API"
          else "Request error: " +:+ exn_message e
      end).
  { unfold rethrow. destruct (exn_response e); [reflexivity|].
    by destruct (exn_request e). }
  destruct (truthy_key cacheKey) as [k|] eqn:Hk.
  - rewrite (Hmiss k Hk). simpl. by rewrite Hre.
  - simpl. by rewrite Hre.
Qed.

(** An entry that has expired is not seen, although it is still stored. *)
Lemma expired_entry_absent (c : gmap string CacheEntry) (t : Z) (k : string)
    (e : CacheEntry) :
  c !! k = Some e -> entry_expiry e < t ->
  table_has c t k = false /\ table_get c t k = VUndef.
Proof.
  intros He Hexp. unfold table_has, table_get, live. rewrite He.
  assert (H : (t <=? entry_expiry e) = false) by (apply Z.leb_gt; lia).
  by rewrite H.
Qed.

(** A call that finds nothing makes one outbound call and answers with
    what the upstream says. *)
Lemma fetch_miss (url : string) (cacheKey : option string) (ttl : option Z) (w : World) :
  misses cacheKey w ->
  outbound_calls (trace (fetchFromRobloxAPI rt url cacheKey ttl w).2)
    = outbound_calls (trace w) ++ [HttpGet url roblox_config] /\
  now (fetchFromRobloxAPI rt url cacheKey ttl w).2
    = now w + Z.of_N (latency (next_reply rt url w)) /\
  (fetchFromRobloxAPI rt url cacheKey ttl w).1
    = match outcome (next_reply rt url w) with
      | Resolve resp => Ok (resp_data resp)
      | Reject e => Throw (rethrow e)
      end.
Proof.
  intros Hmiss. rewrite fetch_unfold.
  destruct (truthy_key cacheKey) as [k|] eqn:Hk.
  - rewrite (Hmiss k Hk). cbv zeta.
    destruct (outcome (next_reply rt url w)); simpl;
      rewrite !outbound_calls_app; simpl; rewrite ?List.app_nil_r; done.
  - cbv zeta.
    destruct (outcome (next_reply rt url w)); simpl;
      rewrite !outbound_calls_app; simpl; done.
Qed.

(** C4: after a fetch for a key populated the table at the time [t0] of
    its store with a time-to-live [t], a call for the same key at any time
    strictly after [t0 + t] makes a fresh outbound call and answers with
    its reply; for a key that is cached at all, the entry is then still
    stored and yet not seen. *)
Theorem expired_entry_refetched (w w2 : World) (url url' k : string)
    (ttl ttl' : option Z) (resp : HttpResponse) :
  table_has (cache w) (now w) k = false ->
  outcome (next_reply rt url w) = Resolve resp ->
  cache w2 !! k = cache (fetchFromRobloxAPI rt url (Some k) ttl w).2 !! k ->
  now (fetchFromRobloxAPI rt url (Some k) ttl w).2 + default 300 ttl * 1000 < now w2 ->
  outbound_calls (trace (fetchFromRobloxAPI rt url' (Some k) ttl' w2).2)
    = outbound_calls (trace w2) ++ [HttpGet url' roblox_config] /\
  (fetchFromRobloxAPI rt url' (Some k) ttl' w2).1
    = match outcome (next_reply rt url' w2) with
      | Resolve resp' => Ok (resp_data resp')
      | Reject e => Throw (rethrow e)
      end /\
  (k <> "" ->
     cache w2 !! k
       = Some {| entry_value := resp_data resp;
                 entry_expiry := now (fetchFromRobloxAPI rt url (Some k) ttl w).2
                                 + default 300 ttl * 1000 |} /\
     table_has (cache w2) (now w2) k = false).
Proof.
  intros Hmiss Hres Hsame Hlate.
  assert (Hentry : k <> "" ->
     cache w2 !! k
       = Some {| entry_value := resp_data resp;
                 entry_expiry := now (fetchFromRobloxAPI rt url (Some k) ttl w).2
                                 + default 300 ttl * 1000 |}).
  { intros Hk. rewrite Hsame. rewrite fetch_unfold, (truthy_key_some k Hk), Hmiss, Hres.
    simpl. unfold table_set. by rewrite lookup_insert_eq. }
  assert (Hmiss2 : misses (Some k) w2).
  { intros k' Hk'. apply truthy_key_nonempty in Hk' as [[= <-] Hne].
    eapply expired_entry_absent; [exact (Hentry Hne)|]. simpl. lia. }
  destruct (fetch_miss url' (Some k) ttl' w2 Hmiss2) as (Hcalls & _ & Hres2).
  split; [exact Hcalls|]. split; [exact Hres2|].
  intros Hk. split; [exact (Hentry Hk)|].
  apply Hmiss2. by apply truthy_key_some.
Qed.

(** C5: a call that misses the cache makes exactly one outbound GET to the
    target, with the timeout of 10000 ms and the identifying header; when
    the call resolves, the decoded body is returned and, under a provided
    key, stored with the expiry [now + ttl], where [ttl] is 300 seconds
    when omitted. *)
Theorem fetch_miss_calls_and_stores (w : World) (url : string) (cacheKey : option string)
    (ttl : option Z) :
  misses cacheKey w ->
  outbound_calls (trace (fetchFromRobloxAPI rt url cacheKey ttl w).2)
    = outbound_calls (trace w)
      ++ [HttpGet url {| cfg_timeout := 10000;
                         cfg_headers := [("User-Agent", "RobloxAPI/1.0")] |}] /\
  forall resp, outcome (next_reply rt url w) = Resolve resp ->
    (fetchFromRobloxAPI rt url cacheKey ttl w).1 = Ok (resp_data resp) /\
    (forall k, truthy_key cacheKey = Some k ->
       cache (fetchFromRobloxAPI rt url cacheKey ttl w).2
         = <[k := {| entry_value := resp_data resp;
                     entry_expiry := now (fetchFromRobloxAPI rt url cacheKey ttl w).2
                                     + match ttl with Some t => t | None => 300 end * 1000 |}]>
             (cache w)) /\
    (truthy_key cacheKey = None ->
       cache (fetchFromRobloxAPI rt url cacheKey ttl w).2 = cache w).
Proof.
  intros Hmiss.
  destruct (fetch_miss url cacheKey ttl w Hmiss) as (Hcalls & _ & Hres).
  split; [exact Hcalls|].
  intros resp Hresp. rewrite Hres, Hresp. split; [reflexivity|].
  rewrite fetch_unfold, Hresp.
  destruct (truthy_key cacheKey) as [k|] eqn:Hk.
  - rewrite (Hmiss k Hk). split; [|discriminate].
    intros k' [= <-]. by destruct ttl.
  - split; [discriminate|]. reflexivity.
Qed.

(** C6: a call without a cache key neither reads nor writes the table: it
    always makes its outbound call, its answer is the same whatever the
    table holds, the table is left as it was, and two calls in a row make
    two outbound calls. *)
Theorem fetch_without_key_bypasses_cache (w : World) (url url2 : string)
    (ttl ttl2 : option Z) :
  trace (fetchFromRobloxAPI rt url None ttl w).2 = trace w ++ [HttpGet url roblox_config] /\
  cache (fetchFromRobloxAPI rt url None ttl w).2 = cache w /\
  (forall c, (fetchFromRobloxAPI rt url None ttl (with_cache c w)).1
             = (fetchFromRobloxAPI rt url None ttl w).1) /\
  trace (fetchFromRobloxAPI rt url2 None ttl2 (fetchFromRobloxAPI rt url None ttl w).2).2
    = trace w ++ [HttpGet url roblox_config; HttpGet url2 roblox_config] /\
  cache (fetchFromRobloxAPI rt url2 None ttl2 (fetchFromRobloxAPI rt url None ttl w).2).2
    = cache w.
Proof.
  assert (H1 : forall u t v,
    trace (fetchFromRobloxAPI rt u None t v).2 = trace v ++ [HttpGet u roblox_config] /\
    cache (fetchFromRobloxAPI rt u None t v).2 = cache v).
  { intros u t v. rewrite fetch_unfold. simpl.
    by destruct (outcome (next_reply rt u v)). }
  destruct (H1 url ttl w) as [Ht Hc].
  destruct (H1 url2 ttl2 (fetchFromRobloxAPI rt url None ttl w).2) as [Ht2 Hc2].
  repeat split.
  - exact Ht.
  - exact Hc.
  - intros c. rewrite !fetch_unfold. simpl. unfold next_reply. simpl.
    by destruct (outcome _).
  - rewrite Ht2, Ht. by rewrite <- List.app_assoc.
  - by rewrite Hc2, Hc.
Qed.

(** A call touches no entry but the one of its own key. *)
Lemma fetch_frame (url : string) (cacheKey : option string) (ttl : option Z)
    (w : World) (k : string) :
  cacheKey <> Some k ->
  cache (fetchFromRobloxAPI rt url cacheKey ttl w).2 !! k = cache w !! k.
Proof.
  intros Hne.
  destruct (fetch_cache_effect url cacheKey ttl w)
    as [[Hc _]|(k' & v & Hk & Hc & _)].
  - by rewrite Hc.
  - apply truthy_key_nonempty in Hk as [-> _].
    rewrite Hc. unfold table_set. rewrite lookup_insert_ne; [done|congruence].
Qed.

(** The answer of a call depends on the table through the entry of its
    own key only. *)
Lemma fetch_result_local (url k : string) (ttl : option Z) (w : World)
    (c : gmap string CacheEntry) :
  c !! k = cache w !! k ->
  (fetchFromRobloxAPI rt url (Some k) ttl (with_cache c w)).1
    = (fetchFromRobloxAPI rt url (Some k) ttl w).1.
Proof.
  intros Hk. rewrite !fetch_unfold.
  destruct (truthy_key (Some k)) as [k'|] eqn:Hkey.
  - apply truthy_key_nonempty in Hkey as [[= <-] _].
    unfold table_has, table_get, next_reply. simpl. rewrite Hk.
    destruct (cache w !! k) as [e|]; [destruct (live (now w) e)|]; simpl;
      try reflexivity; by destruct (outcome _).
  - unfold next_reply. simpl. by destruct (outcome _).
Qed.

(** C7: the table has one entry per key, which a set replaces, and no
    lookup crosses keys.  A fetch under the key [a] that stores leaves
    under [a] exactly the new entry, in the place of the one that may
    have been there: the keys of the table are the old ones and [a], and
    the table grows by one entry only when [a] had none.  Every other
    key keeps its entry.  A fetch under another key [b] that follows
    finds the entry of [b] as it was, answers as it would without any
    entry under [a], and its answer is the value stored under [b] or the
    reply of its own outbound call.  This holds from every world. *)
Theorem no_cross_key_leakage (w : World) (a b url1 url2 : string) (ttl1 ttl2 : option Z) :
  a <> b ->
  (forall c t v ttl,
     table_set c t a v ttl !! a = Some {| entry_value := v; entry_expiry := t + ttl * 1000 |} /\
     table_set c t a v ttl !! b = c !! b /\
     dom (table_set c t a v ttl) = {[a]} ∪ dom c) /\
  (forall resp,
     a <> "" ->
     table_has (cache w) (now w) a = false ->
     outcome (next_reply rt url1 w) = Resolve resp ->
     cache (fetchFromRobloxAPI rt url1 (Some a) ttl1 w).2 !! a
       = Some {| entry_value := resp_data resp;
                 entry_expiry := now (fetchFromRobloxAPI rt url1 (Some a) ttl1 w).2
                                 + default 300 ttl1 * 1000 |} /\
     dom (cache (fetchFromRobloxAPI rt url1 (Some a) ttl1 w).2) = {[a]} ∪ dom (cache w) /\
     size (cache (fetchFromRobloxAPI rt url1 (Some a) ttl1 w).2)
       = match cache w !! a with
         | Some _ => size (cache w)
         | None => S (size (cache w))
         end) /\
  (forall k, k <> a ->
     cache (fetchFromRobloxAPI rt url1 (Some a) ttl1 w).2 !! k = cache w !! k) /\
  cache (fetchFromRobloxAPI rt url1 (Some a) ttl1 w).2 !! b = cache w !! b /\
  (fetchFromRobloxAPI rt url2 (Some b) ttl2 (fetchFromRobloxAPI rt url1 (Some a) ttl1 w).2).1
    = (fetchFromRobloxAPI rt url2 (Some b) ttl2
         (with_cache (delete a (cache (fetchFromRobloxAPI rt url1 (Some a) ttl1 w).2))
                     (fetchFromRobloxAPI rt url1 (Some a) ttl1 w).2)).1 /\
  (forall v,
     (fetchFromRobloxAPI rt url2 (Some b) ttl2
        (fetchFromRobloxAPI rt url1 (Some a) ttl1 w).2).1 = Ok v ->
     (exists e, cache w !! b = Some e /\ v = entry_value e) \/
     (exists resp,
        outcome (next_reply rt url2 (fetchFromRobloxAPI rt url1 (Some a) ttl1 w).2)
          = Resolve resp /\ v = resp_data resp)).
Proof.
  intros Hab.
  assert (Hframe : cache (fetchFromRobloxAPI rt url1 (Some a) ttl1 w).2 !! b = cache w !! b).
  { apply fetch_frame. congruence. }
  split; [|split; [|split; [|split; [exact Hframe|split]]]].
  - intros c t v ttl. unfold table_set.
    rewrite lookup_insert_eq, lookup_insert_ne by exact Hab.
    by rewrite dom_insert_L.
  - intros resp Ha Hmiss Hres.
    rewrite fetch_unfold, (truthy_key_some a Ha), Hmiss, Hres. simpl.
    unfold table_set. simpl.
    rewrite lookup_insert_eq, dom_insert_L, map_size_insert.
    split; [reflexivity|]. split; [reflexivity|].
    by destruct (cache w !! a).
  - intros k Hk. apply fetch_frame. congruence.
  - symmetry. apply fetch_result_local. simpl. by rewrite lookup_delete_ne.
  - intros v. set (w1 := (fetchFromRobloxAPI rt url1 (Some a) ttl1 w).2) in *.
    rewrite fetch_unfold.
    destruct (truthy_key (Some b)) as [k|] eqn:Hkey.
    + apply truthy_key_nonempty in Hkey as [[= <-] _].
      unfold table_has, table_get. rewrite Hframe.
      destruct (cache w !! b) as [e|] eqn:He.
      * destruct (live (now w1) e); simpl.
        -- intros [= <-]. left. by exists e.
        -- destruct (outcome (next_reply rt url2 w1)) as [resp|x]; simpl; [|discriminate].
           intros [= <-]. right. by exists resp.
      * simpl. destruct (outcome (next_reply rt url2 w1)) as [resp|x]; simpl; [|discriminate].
        intros [= <-]. right. by exists resp.
    + simpl. destruct (outcome (next_reply rt url2 w1)) as [resp|x]; simpl; [|discriminate].
      intros [= <-]. right. by exists resp.
Qed.

End GatewayProperties.

(** * Properties of the route handlers *)

Section HandlerProperties.

Context (rt : Runtime).

Lemma random_below_run (n : Z) (w : World) :
  random_below rt n w
  = (Ok (Math_floor (random_unit rt (draws w) * inject_Z n)), drawn w).
Proof. reflexivity. Qed.

Lemma advance_advance (j k : nat) (w : World) :
  advance j (advance k w) = advance (j + k) w.
Proof. unfold advance. simpl. f_equal. lia. Qed.






(** A rejected auxiliary call is replaced by its default. *)
Lemma auxiliary_defaults (userId : string) (e : Exn) (w : World) :
  friends_count (Rejected e) = Ok (VInt 0) /\
  avatar_thumbnail rt userId (Rejected e) w = (Ok (VStr (default_thumbnail userId)), w).
Proof. split; reflexivity. Qed.

(** When the user info is an object and both auxiliary calls are
    rejected, the profile is built from the user info with no friends and
    the default thumbnail. *)
Lemma player_tolerates_auxiliary_failures (req : Request) (w w1 : World)
    (props : list (string * Val)) (e1 e2 : Exn) :
  fetchFromRobloxAPI rt ("https://users.roblox.com/v1/users/" +:+ req_params req "userId")
    (Some ("player_" +:+ req_params req "userId")) None w = (Ok (VObj props), w1) ->
  outcome (upstream rt
             ("https://friends.roblox.com/v1/users/" +:+ req_params req "userId"
              +:+ "/friends/count")
             (length (outbound_calls (trace w1)))) = Reject e1 ->
  outcome (upstream rt
             ("https://thumbnails.roblox.com/v1/users/avatar-headshot?userIds="
              +:+ req_params req "userId" +:+ "&size=150x150&format=Png")
             (S (length (outbound_calls (trace w1))))) = Reject e2 ->
  exists t,
    (player_handler rt req w).1
    = Ok {| res_status := 200;
            res_body :=
              VObj [("success", VBool true);
                    ("message", VStr "Success");
                    ("data",
                     VObj [("userId", number (parseInt (req_params req "userId")));
                           ("username",
                            js_or (own_property props "displayName")
                                  (own_property props "name"));
                           ("displayName", own_property props "displayName");
                           ("description",
                            js_or (own_property props "description") (VStr ""));
                           ("created", own_property props "created");
                           ("isBanned",
                            js_or (own_property props "isBanned") (VBool false));
                           ("friendsCount", VInt 0);
                           ("avatarThumbnail",
                            VStr (default_thumbnail (req_params req "userId")));
                           ("hasVerifiedBadge",
                            js_or (own_property props "hasVerifiedBadge") (VBool false))]);
                    ("timestamp", VStr (toISOString rt t))] |}.
Proof.
  intros Hmain Hfriends Havatar.
  unfold player_handler, try_catch.
  unfold bind at 1. rewrite Hmain.
  unfold bind at 1. unfold allSettled2.
  rewrite fetch_unfold. simpl truthy_key. cbv zeta.
  unfold after_call, next_reply. rewrite Hfriends.
  rewrite fetch_unfold. simpl truthy_key. cbv zeta.
  unfold after_call, next_reply. simpl trace.
  rewrite outbound_calls_app, List.length_app. simpl length.
  replace (length (outbound_calls (trace w1)) + 1)%nat
    with (S (length (outbound_calls (trace w1)))) by lia.
  rewrite Havatar. simpl.
  unfold player_profile, or_else, js_or, bind, lift, ret. simpl.
  destruct (truthy (own_property props "displayName")); simpl; eexists; reflexivity.
Qed.

(** C9, at the failing input: the three calls of [GET /player/1] all
    succeed, the thumbnails document has no [data] member, and the
    response is nevertheless the mock profile. *)
Theorem player_mock_without_fetch_failure :
  (fetchFromRobloxAPI (runtime_of (upstream_player (VObj [])) None)
     "https://users.roblox.com/v1/users/1" (Some "player_1") None (initial_world 0)).1
    = Ok user_info_1 /\
  avatar_thumbnail (runtime_of (upstream_player (VObj [])) None) "1"
     (Fulfilled (VObj [])) (initial_world 0)
    = (Throw (TypeError "Cannot read properties of undefined (reading 'length')"),
       initial_world 0) /\
  (get_player (runtime_of (upstream_player (VObj [])) None) request_1 (initial_world 0)).1
    = Ok {| res_status := 200;
            res_body := VObj [("success", VBool true);
                              ("message", VStr "Success");
                              ("data", mock_player "1" 0);
                              ("timestamp", VStr "2024-01-15T10:30:00.000Z")] |}.
Proof. repeat split; vm_compute; reflexivity. Qed.

(** Every body built by the two envelope helpers is well formed. *)
Lemma helpers_build_envelopes (w : World) (data : Val) (message : option string)
    (statusCode : Z) (error : string) (code : option string) (details : option Val) :
  (is_present data = true ->
   exists r, (sendResponse rt data message w).1 = Ok r
             /\ well_formed_envelope (res_body r) = true) /\
  exists r, (sendError rt statusCode error code details w).1 = Ok r
            /\ well_formed_envelope (res_body r) = true.
Proof.
  split.
  - intros Hdata. eexists. split; [reflexivity|]. simpl. exact Hdata.
  - eexists. split; reflexivity.
Qed.

(** C10, at the failing input: with an API key configured, a request
    without a key gets the body of line 50, which has no [timestamp]; the
    body of a validation failure, line 64, has none either. *)
Theorem auth_failure_lacks_timestamp :
  (get_player (runtime_of (upstream_resolving profile_A) (Some "secret")) request_1
     (initial_world 0)).1
    = Ok {| res_status := 401;
            res_body := VObj [("success", VBool false);
                              ("error", VStr "Invalid or missing API key");
                              ("code", VStr "INVALID_API_KEY")] |} /\
  well_formed_envelope
    (VObj [("success", VBool false);
           ("error", VStr "Invalid or missing API key");
           ("code", VStr "INVALID_API_KEY")]) = false /\
  (get_player (runtime_of (upstream_resolving profile_A) None) request_invalid
     (initial_world 0)).1
    = Ok {| res_status := 400;
            res_body := VObj [("success", VBool false);
                              ("error", VStr "Validation failed");
                              ("code", VStr "VALIDATION_ERROR");
                              ("details",
                               VArr [VObj [("msg", VStr "User ID must be numeric")]])] |} /\
  well_formed_envelope
    (VObj [("success", VBool false);
           ("error", VStr "Validation failed");
           ("code", VStr "VALIDATION_ERROR");
           ("details", VArr [VObj [("msg", VStr "User ID must be numeric")]])]) = false.
Proof. repeat split. Qed.

End HandlerProperties.

(** * The error kinds of a failed fetch *)

(** C3, as stated, fails: the expiry of the timeout and a refused
    connection raise the same error, so that no reading of the raised
    error tells the one category from the other. *)
Lemma fetch_error_kind_counterexample :
  (fetchFromRobloxAPI (runtime_of (upstream_rejecting 10000 timed_out) None)
     "https://upstream/x" (Some "player_1") None (initial_world 0)).1
    = Throw (Error "Failed to connect to Roblox API") /\
  (fetchFromRobloxAPI (runtime_of (upstream_rejecting 3 refused) None)
     "https://upstream/x" (Some "player_1") None (initial_world 0)).1
    = Throw (Error "Failed to connect to Roblox API") /\
  failure_category timed_out = Timeout /\
  failure_category refused = UpstreamUnreachable /\
  ~ errors_identify_category.
Proof.
  split; [reflexivity|]. split; [reflexivity|].
  split; [reflexivity|]. split; [reflexivity|].
  intros [kind_of H].
  destruct (H (runtime_of (upstream_rejecting 10000 timed_out) None) (initial_world 0)
              "https://upstream/x" (Some "player_1") None timed_out)
    as (x1 & Hx1 & Hk1); [intros k _; reflexivity | reflexivity |].
  destruct (H (runtime_of (upstream_rejecting 3 refused) None) (initial_world 0)
              "https://upstream/x" (Some "player_1") None refused)
    as (x2 & Hx2 & Hk2); [intros k _; reflexivity | reflexivity |].
  vm_compute in Hx1, Hx2. injection Hx1 as <-. injection Hx2 as <-.
  rewrite Hk1 in Hk2. discriminate Hk2.
Qed.

(** * A failure that writes the table *)

(** C2, as stated, fails: a 2xx reply whose body cannot be decoded is no
    failure for the helper; axios resolves with the raw text, the call
    returns it and line 114 stores it under the key. *)
Lemma unparseable_body_counterexample :
  (fetchFromRobloxAPI
     (runtime_of (upstream_failing (UnparseableBody "<html>Bad Gateway</html>")) None)
     "https://upstream/x" (Some "player_1") None (initial_world 0)).1
    = Ok (VStr "<html>Bad Gateway</html>") /\
  cache (fetchFromRobloxAPI
           (runtime_of (upstream_failing (UnparseableBody "<html>Bad Gateway</html>")) None)
           "https://upstream/x" (Some "player_1") None (initial_world 0)).2 !! "player_1"
    = Some {| entry_value := VStr "<html>Bad Gateway</html>"; entry_expiry := 300020 |} /\
  cache (initial_world 0) !! "player_1" = None /\
  ~ failures_keep_cache.
Proof.
  split; [reflexivity|]. split; [vm_compute; reflexivity|]. split; [reflexivity|].
  intros H.
  specialize (H (runtime_of (upstream_failing (UnparseableBody "<html>Bad Gateway</html>")) None)
                (initial_world 0) "https://upstream/x" "player_1" None
                (UnparseableBody "<html>Bad Gateway</html>")).
  assert (Hset : cache (fetchFromRobloxAPI
           (runtime_of (upstream_failing (UnparseableBody "<html>Bad Gateway</html>")) None)
           "https://upstream/x" (Some "player_1") None (initial_world 0)).2 !! "player_1"
    = Some {| entry_value := VStr "<html>Bad Gateway</html>"; entry_expiry := 300020 |})
    by (vm_compute; reflexivity).
  rewrite H in Hset; [discriminate Hset | discriminate | reflexivity].
Qed.

(** * The theorems at concrete inputs *)

(** The scenario of section 8: the first fetch stored [{name:"A"}] at
    20 ms, and a call 100 s later, for another target, is a hit. *)
Lemma cache_hit_returns_entry_witness :
  reachable (runtime_of upstream_A_then_B None) (elapse 100000 world_after_first_fetch) /\
  (fetchFromRobloxAPI (runtime_of upstream_A_then_B None) "https://elsewhere/y"
     (Some "player_1") None (elapse 100000 world_after_first_fetch)).1 = Ok profile_A /\
  outbound_calls
    (trace (fetchFromRobloxAPI (runtime_of upstream_A_then_B None) "https://elsewhere/y"
              (Some "player_1") None (elapse 100000 world_after_first_fetch)).2)
    = outbound_calls (trace (elapse 100000 world_after_first_fetch)).
Proof.
  assert (Hreach : reachable (runtime_of upstream_A_then_B None)
                     (elapse 100000 world_after_first_fetch)).
  { apply reach_elapse. unfold world_after_first_fetch.
    apply reach_fetch, reach_start. }
  split; [exact Hreach|].
  destruct (cache_hit_returns_entry (runtime_of upstream_A_then_B None)
              (elapse 100000 world_after_first_fetch) "https://elsewhere/y" "player_1" None
              {| entry_value := profile_A; entry_expiry := 300020 |}
              Hreach) as (Hval & Hcalls & _).
  - vm_compute. reflexivity.
  - vm_compute. reflexivity.
  - split; [exact Hval | exact Hcalls].
Defined.

(** The scenario of section 8: the upstream answers 503 and the table has
    no entry afterwards. *)
Lemma failed_fetch_keeps_cache_witness :
  cache (fetchFromRobloxAPI (runtime_of (upstream_rejecting 35 status_503) None)
           "https://upstream/x" (Some "player_1") (Some 300) (initial_world 0)).2
  = cache (initial_world 0).
Proof.
  apply (failed_fetch_keeps_cache (runtime_of (upstream_rejecting 35 status_503) None)
           (initial_world 0) "https://upstream/x" (Some "player_1") (Some 300) status_503).
  reflexivity.
Defined.

Lemma failed_fetch_raises_witness :
  (fetchFromRobloxAPI (runtime_of (upstream_rejecting 35 status_503) None)
     "https://upstream/x" (Some "player_1") (Some 300) (initial_world 0)).1
  = Throw (Error "Roblox API error: 503 - Service Unavailable").
Proof.
  apply (failed_fetch_raises (runtime_of (upstream_rejecting 35 status_503) None)
           (initial_world 0) "https://upstream/x" (Some "player_1") (Some 300) status_503).
  - intros k _. reflexivity.
  - reflexivity.
Defined.

(** The scenario of section 8: the entry stored at 20 ms with a
    time-to-live of 300 s is not served at 300021 ms; the call goes to
    the upstream and returns [{name:"B"}]. *)
Lemma expired_entry_refetched_witness :
  now (elapse 300001 world_after_first_fetch) = 300021 /\
  (fetchFromRobloxAPI (runtime_of upstream_A_then_B None) "https://upstream/x"
     (Some "player_1") (Some 300) (elapse 300001 world_after_first_fetch)).1
  = Ok profile_B.
Proof.
  split; [reflexivity|].
  destruct (expired_entry_refetched (runtime_of upstream_A_then_B None)
              (initial_world 0) (elapse 300001 world_after_first_fetch)
              "https://upstream/x" "https://upstream/x" "player_1"
              (Some 300) (Some 300) (ok_response profile_A))
    as (_ & Hres & _).
  - reflexivity.
  - reflexivity.
  - reflexivity.
  - vm_compute. reflexivity.
  - exact Hres.
Defined.

Lemma fetch_miss_calls_and_stores_witness :
  outbound_calls
    (trace (fetchFromRobloxAPI (runtime_of upstream_A_then_B None) "https://upstream/x"
              (Some "player_1") None (initial_world 0)).2)
  = [HttpGet "https://upstream/x"
       {| cfg_timeout := 10000; cfg_headers := [("User-Agent", "RobloxAPI/1.0")] |}] /\
  cache (fetchFromRobloxAPI (runtime_of upstream_A_then_B None) "https://upstream/x"
           (Some "player_1") None (initial_world 0)).2
  = <["player_1" := {| entry_value := profile_A; entry_expiry := 300020 |}]> ∅.
Proof.
  destruct (fetch_miss_calls_and_stores (runtime_of upstream_A_then_B None)
              (initial_world 0) "https://upstream/x" (Some "player_1") None)
    as (Hcalls & Hstore).
  - intros k _. reflexivity.
  - split; [exact Hcalls|].
    destruct (Hstore (ok_response profile_A) eq_refl) as (_ & Hset & _).
    exact (Hset "player_1" eq_refl).
Defined.

(** The entry of [player_1] has expired; a fetch under this key takes
    its place with the new reply, the table still has one entry, and a
    fetch under another key answers as if [player_1] had none. *)
Lemma no_cross_key_leakage_witness :
  cache (elapse 300001 world_after_first_fetch) !! "player_1"
    = Some {| entry_value := profile_A; entry_expiry := 300020 |} /\
  cache (fetchFromRobloxAPI (runtime_of upstream_A_then_B None) "https://upstream/x"
           (Some "player_1") None (elapse 300001 world_after_first_fetch)).2 !! "player_1"
    = Some {| entry_value := profile_B; entry_expiry := 600041 |} /\
  size (cache (fetchFromRobloxAPI (runtime_of upstream_A_then_B None) "https://upstream/x"
                 (Some "player_1") None (elapse 300001 world_after_first_fetch)).2)
    = 1%nat /\
  (fetchFromRobloxAPI (runtime_of upstream_A_then_B None) "https://upstream/2" (Some "b") None
     (fetchFromRobloxAPI (runtime_of upstream_A_then_B None) "https://upstream/x"
        (Some "player_1") None (elapse 300001 world_after_first_fetch)).2).1
  = (fetchFromRobloxAPI (runtime_of upstream_A_then_B None) "https://upstream/2" (Some "b") None
       (with_cache
          (delete "player_1"
             (cache (fetchFromRobloxAPI (runtime_of upstream_A_then_B None)
                       "https://upstream/x" (Some "player_1") None
                       (elapse 300001 world_after_first_fetch)).2))
          (fetchFromRobloxAPI (runtime_of upstream_A_then_B None) "https://upstream/x"
             (Some "player_1") None (elapse 300001 world_after_first_fetch)).2)).1.
Proof.
  destruct (no_cross_key_leakage (runtime_of upstream_A_then_B None)
              (elapse 300001 world_after_first_fetch)
              "player_1" "b" "https://upstream/x" "https://upstream/2" None None)
    as (_ & Hstore & _ & _ & Hsame & _).
  - discriminate.
  - destruct (Hstore (ok_response profile_B)) as (Hentry & _ & Hsize).
    + discriminate.
    + reflexivity.
    + reflexivity.
    + split; [vm_compute; reflexivity|].
      split; [exact Hentry|].
      split; [exact Hsize | exact Hsame].
Defined.

(** * Further properties of the gateway *)

Section MoreGatewayProperties.

Context (rt : Runtime).

Lemma fetch_hit_after_store (w w2 : World) (url url' k : string)
    (ttl ttl' : option Z) (resp : HttpResponse) :
  k <> "" ->
  table_has (cache w) (now w) k = false ->
  outcome (next_reply rt url w) = Resolve resp ->
  cache w2 !! k = cache (fetchFromRobloxAPI rt url (Some k) ttl w).2 !! k ->
  now w2 <= now (fetchFromRobloxAPI rt url (Some k) ttl w).2 + default 300 ttl * 1000 ->
  (fetchFromRobloxAPI rt url' (Some k) ttl' w2).1 = Ok (resp_data resp) /\
  outbound_calls (trace (fetchFromRobloxAPI rt url' (Some k) ttl' w2).2)
    = outbound_calls (trace w2) /\
  cache (fetchFromRobloxAPI rt url' (Some k) ttl' w2).2 = cache w2.
Proof.
  intros Hk Hmiss Hres Hsame Hfresh.
  assert (Hentry : cache w2 !! k
     = Some {| entry_value := resp_data resp;
               entry_expiry := now (fetchFromRobloxAPI rt url (Some k) ttl w).2
                               + default 300 ttl * 1000 |}).
  { rewrite Hsame, fetch_unfold, (truthy_key_some k Hk), Hmiss, Hres.
    simpl. unfold table_set. by rewrite lookup_insert_eq. }
  rewrite fetch_unfold, (truthy_key_some k Hk).
  unfold table_has, table_get, live. rewrite Hentry. simpl entry_expiry.
  assert (Hle : (now w2 <=? now (fetchFromRobloxAPI rt url (Some k) ttl w).2
                           + default 300 ttl * 1000) = true) by (apply Z.leb_le; lia).
  rewrite Hle. simpl. repeat split.
  by rewrite !outbound_calls_app, !List.app_nil_r.
Qed.

(** After a fetch populated the table under a key at the time [t0] of
    its store, every call for that key up to and including [t0 + ttl] is
    answered with the stored value, without an outbound call and without
    a change of the table, whatever its target. *)
Theorem fetch_populate_then_hit (w w2 : World) (url url' k : string)
    (ttl ttl' : option Z) (resp : HttpResponse) :
  k <> "" ->
  table_has (cache w) (now w) k = false ->
  outcome (next_reply rt url w) = Resolve resp ->
  cache w2 !! k = cache (fetchFromRobloxAPI rt url (Some k) ttl w).2 !! k ->
  now w2 <= now (fetchFromRobloxAPI rt url (Some k) ttl w).2 + default 300 ttl * 1000 ->
  (fetchFromRobloxAPI rt url' (Some k) ttl' w2).1 = Ok (resp_data resp) /\
  outbound_calls (trace (fetchFromRobloxAPI rt url' (Some k) ttl' w2).2)
    = outbound_calls (trace w2) /\
  cache (fetchFromRobloxAPI rt url' (Some k) ttl' w2).2 = cache w2.
Proof. apply fetch_hit_after_store. Qed.

(** A call makes no outbound call when it is answered from the cache and
    exactly one otherwise, never more. *)
Theorem fetch_outbound_count (url : string) (cacheKey : option string) (ttl : option Z)
    (w : World) :
  outbound_calls (trace (fetchFromRobloxAPI rt url cacheKey ttl w).2)
  = outbound_calls (trace w)
    ++ (if answered_from_cache cacheKey w then [] else [HttpGet url roblox_config]).
Proof.
  rewrite fetch_unfold. unfold answered_from_cache.
  destruct (truthy_key cacheKey) as [k|].
  - destruct (table_has (cache w) (now w) k); simpl.
    + rewrite !outbound_calls_app. simpl. by rewrite !List.app_nil_r.
    + destruct (outcome (next_reply rt url w)); simpl;
        rewrite !outbound_calls_app; simpl; by rewrite ?List.app_nil_r.
  - simpl. destruct (outcome (next_reply rt url w)); simpl;
      by rewrite !outbound_calls_app.
Qed.

(** The table changes in one case only: the call had a truthy key, was
    not answered from the cache, and its outbound call resolved; the
    change is then the entry of that key.  A call never writes after a
    rejection, under a falsy key, or on a hit. *)
Theorem fetch_writes_only_resolved_miss (url : string) (cacheKey : option string)
    (ttl : option Z) (w : World) :
  cache (fetchFromRobloxAPI rt url cacheKey ttl w).2 = cache w \/
  exists k resp,
    truthy_key cacheKey = Some k /\
    table_has (cache w) (now w) k = false /\
    outcome (next_reply rt url w) = Resolve resp /\
    cache (fetchFromRobloxAPI rt url cacheKey ttl w).2
    = <[k := {| entry_value := resp_data resp;
                entry_expiry := now w + Z.of_N (latency (next_reply rt url w))
                                + default 300 ttl * 1000 |}]> (cache w).
Proof.
  rewrite fetch_unfold.
  destruct (truthy_key cacheKey) as [k|] eqn:Hk.
  - destruct (table_has (cache w) (now w) k) eqn:Hhas; [by left|].
    cbv zeta. destruct (outcome (next_reply rt url w)) as [resp|e] eqn:Hout; [|by left].
    right. exists k, resp. repeat split. exact Hhas.
  - cbv zeta. destruct (outcome (next_reply rt url w)); by left.
Qed.

End MoreGatewayProperties.

(** * Further properties of the handlers *)

Section MoreHandlerProperties.

Context (rt : Runtime).

(** ** The key check and the routes *)

Lemma nonempty_idem (x : option string) (k : string) :
  nonempty x = Some k -> nonempty (Some k) = Some k.
Proof.
  destruct x as [s|]; [|discriminate]. simpl.
  destruct (String.eqb s "") eqn:E; [discriminate|]. intros [= <-]. by rewrite E.
Qed.

(** The key check, in terms of the key that the request presents. *)
Lemma auth_unfold (req : Request) :
  authenticateApiKey rt req =
  match nonempty (API_KEY rt) with
  | None => None
  | Some required =>
      match presented_key req with
      | Some k => if String.eqb k required then None else Some key_rejection
      | None => Some key_rejection
      end
  end.
Proof.
  unfold authenticateApiKey, presented_key, key_rejection.
  destruct (nonempty (API_KEY rt)) as [required|]; [|reflexivity].
  destruct (nonempty (req_headers req "x-api-key")) as [h|] eqn:Hh.
  - by rewrite (nonempty_idem _ _ Hh).
  - reflexivity.
Qed.

Lemma auth_rejection (req : Request) (r : Response) :
  authenticateApiKey rt req = Some r -> r = key_rejection.
Proof.
  rewrite auth_unfold.
  destruct (nonempty (API_KEY rt)) as [required|]; [|discriminate].
  destruct (presented_key req) as [k|]; [destruct (String.eqb k required)|];
    congruence.
Qed.

(** The key check lets a request pass exactly when no key is configured
    or the key that the request presents is the configured one; the
    header, when present, decides alone, so that a wrong header is
    rejected even beside a right query parameter.  A rejection is the
    status 401 with the code [INVALID_API_KEY]. *)
Theorem api_key_check (req : Request) :
  (authenticateApiKey rt req = None
   <-> nonempty (API_KEY rt) = None \/ presented_key req = nonempty (API_KEY rt)) /\
  (forall r, authenticateApiKey rt req = Some r ->
     res_status r = 401 /\ own_property_of (res_body r) "code" = VStr "INVALID_API_KEY") /\
  (forall required h,
     nonempty (API_KEY rt) = Some required ->
     nonempty (req_headers req "x-api-key") = Some h ->
     h <> required ->
     authenticateApiKey rt req <> None).
Proof.
  rewrite auth_unfold.
  destruct (nonempty (API_KEY rt)) as [required|] eqn:Hreq.
  - split; [|split].
    + destruct (presented_key req) as [k|].
      * destruct (String.eqb k required) eqn:E.
        -- apply String.eqb_eq in E as ->. split; [by right | done].
        -- apply String.eqb_neq in E. split; [done|].
           intros [H|H]; [done | congruence].
      * split; [done|]. intros [H|H]; done.
    + intros r Hr.
      assert (r = key_rejection) as ->.
      { destruct (presented_key req) as [k|]; [destruct (String.eqb k required)|];
          congruence. }
      by split.
    + intros required' h [= <-] Hh Hne. unfold presented_key. rewrite Hh.
      apply String.eqb_neq in Hne. by rewrite Hne.
  - split; [|split]; [split; [by left | done] | done | done].
Qed.

(** A route runs its handler only for a request that passed the key
    check and the validation; every other request is answered at once
    with 401 or 400 and leaves the world as it was: no outbound call, no
    access to the table, no random draw.  The key is checked first, so
    that a request without the key learns nothing about its validation
    errors. *)
Theorem route_gate (handler : Request -> M Response) (req : Request) (w : World) :
  (authenticateApiKey rt req = None /\ req_validation req = [] /\
   route rt handler req w = handler req w) \/
  (exists r, route rt handler req w = (Ok r, w) /\
     ((authenticateApiKey rt req = Some r /\ res_status r = 401) \/
      (authenticateApiKey rt req = None /\ req_validation req <> [] /\
       res_status r = 400 /\
       own_property_of (res_body r) "details" = VArr (req_validation req)))).
Proof.
  unfold route.
  destruct (authenticateApiKey rt req) as [r|] eqn:Hauth.
  - right. exists r. split; [reflexivity|]. left. split; [reflexivity|].
    by rewrite (auth_rejection req r Hauth).
  - unfold handleValidationErrors.
    destruct (req_validation req) as [|err errs] eqn:Hval.
    + left. by repeat split.
    + right. eexists. split; [reflexivity|]. right. by repeat split.
Qed.

(** ** Random numbers *)

Lemma random_unit_range (d : nat) :
  exists num, random_unit rt d = Qmake num (2 ^ 53) /\ 0 <= num < Z.pos (2 ^ 53).
Proof.
  exists (Z.of_N (random_bits rt d mod 2 ^ 53)). split; [reflexivity|].
  split; [apply N2Z.is_nonneg|].
  change (Z.pos (2 ^ 53)) with (Z.of_N (2 ^ 53)).
  apply N2Z.inj_lt, N.mod_lt. discriminate.
Qed.

Lemma floor_scaled (num : Z) (d : positive) (n : Z) :
  0 <= num < Z.pos d -> 0 < n -> 0 <= Qfloor (Qmake num d * inject_Z n) < n.
Proof.
  intros [H0 H1] Hn.
  unfold Qfloor, Qmult, inject_Z. simpl Qnum. simpl Qden.
  rewrite Pos.mul_1_r.
  split.
  - apply Z.div_pos; nia.
  - apply Z.div_lt_upper_bound; nia.
Qed.

Lemma random_below_bounds (n : Z) (w : World) :
  0 < n ->
  exists z, random_below rt n w = (Ok z, drawn w) /\ 0 <= z < n.
Proof.
  intros Hn. rewrite random_below_run. eexists. split; [reflexivity|].
  destruct (random_unit_range (draws w)) as (num & -> & Hnum).
  by apply floor_scaled.
Qed.

(** [Math.random()] is a number from 0 inclusive to 1 exclusive, and
    [Math.floor(Math.random() * n)] is an integer from 0 to [n - 1];
    each costs one draw. *)
Theorem random_below_range (n : Z) (w : World) :
  0 < n ->
  (exists r, Math_random rt w = (Ok r, drawn w) /\ (0 <= r)%Q /\ (r < 1)%Q) /\
  (exists z, random_below rt n w = (Ok z, drawn w) /\ 0 <= z < n).
Proof.
  intros Hn. split; [|by apply random_below_bounds].
  eexists. split; [reflexivity|].
  destruct (random_unit_range (draws w)) as (num & -> & Hnum).
  unfold Qle, Qlt. simpl. lia.
Qed.

(** ** Computations that leave the upstream and the table alone *)

Lemma quiet_ret {A} (a : A) : quiet (ret a).
Proof. by intros w. Qed.

Lemma quiet_throw {A} (e : Exn) : quiet (@throw A e).
Proof. by intros w. Qed.

Lemma quiet_lift {A} (r : Res A) : quiet (lift r).
Proof. by intros w. Qed.

Lemma quiet_bind {A B} (m : M A) (k : A -> M B) :
  quiet m -> (forall a, quiet (k a)) -> quiet (bind m k).
Proof.
  intros Hm Hk w. unfold bind. specialize (Hm w).
  destruct (m w) as [[a|e] w1]; simpl in Hm.
  - destruct (Hk a w1) as (Ht & Hc & Hn). destruct Hm as (Ht1 & Hc1 & Hn1).
    repeat split; congruence.
  - exact Hm.
Qed.

Lemma quiet_try_catch {A} (m : M A) (h : Exn -> M A) :
  quiet m -> (forall e, quiet (h e)) -> quiet (try_catch m h).
Proof.
  intros Hm Hh w. unfold try_catch. specialize (Hm w).
  destruct (m w) as [[a|e] w1]; simpl in Hm.
  - exact Hm.
  - destruct (Hh e w1) as (Ht & Hc & Hn). destruct Hm as (Ht1 & Hc1 & Hn1).
    repeat split; congruence.
Qed.

Lemma quiet_Math_random : quiet (Math_random rt).
Proof. by intros w. Qed.

Lemma quiet_random_below (n : Z) : quiet (random_below rt n).
Proof. by intros w. Qed.

Lemma quiet_random_above (q : Q) : quiet (random_above rt q).
Proof. by intros w. Qed.

Lemma quiet_Date_now_iso : quiet (Date_now_iso rt).
Proof. by intros w. Qed.

Lemma quiet_Date_now : quiet Date_now.
Proof. by intros w. Qed.

Lemma quiet_sendResponse (data : Val) (message : option string) :
  quiet (sendResponse rt data message).
Proof. by intros w. Qed.

Lemma quiet_sendError (statusCode : Z) (message : string) (code : option string)
    (details : option Val) :
  quiet (sendError rt statusCode message code details).
Proof. by intros w. Qed.

Lemma quiet_map_indices (f : nat -> M Val) (n i : nat) :
  (forall j, quiet (f j)) -> quiet (map_indices f n i).
Proof.
  intros Hf. revert i. induction n as [|n IH]; intros i; simpl.
  - apply quiet_ret.
  - apply quiet_bind; [apply Hf|]. intros x.
    apply quiet_bind; [apply IH|]. intros l. apply quiet_ret.
Qed.

Lemma quiet_Array_from_length (len : Z) (f : nat -> M Val) :
  (forall j, quiet (f j)) -> quiet (Array_from_length len f).
Proof.
  intros Hf. unfold Array_from_length.
  destruct (4294967295 <? len); [apply quiet_throw | by apply quiet_map_indices].
Qed.

Ltac quiet_step :=
  first
    [ apply quiet_ret | apply quiet_throw | apply quiet_lift
    | apply quiet_Math_random | apply quiet_random_below | apply quiet_random_above
    | apply quiet_Date_now_iso | apply quiet_Date_now
    | apply quiet_sendResponse | apply quiet_sendError
    | apply quiet_Array_from_length; intros ?
    | apply quiet_try_catch; [|intros ?]
    | apply quiet_bind; [|intros ?] ].

(** The handlers of [GET /limited/:assetId], [GET /mutual/...],
    [GET /events/latest] and [GET /health], the 404 handler and the
    global error handler make no outbound call and neither read nor
    write the table: after them the effects performed and the table are
    as before. *)
Theorem mock_handlers_are_local (req : Request) (uptime : Q) (error : Exn) :
  quiet (limited_handler rt req) /\
  quiet (mutual_handler rt req) /\
  quiet (events_handler rt req) /\
  quiet (health_handler rt uptime) /\
  quiet (not_found_handler rt) /\
  quiet (global_error_handler rt error).
Proof.
  repeat match goal with |- _ /\ _ => split end;
    unfold limited_handler, mutual_handler, events_handler, health_handler,
      not_found_handler, global_error_handler, limited_sale, volume_point,
      mutual_friend, latest_event;
    repeat quiet_step.
Qed.

(** ** What the handlers send *)

Lemma returns_ret {A} (Q : A -> Prop) (a : A) : Q a -> returns Q (ret a).
Proof. by intros H w. Qed.

Lemma returns_throw {A} (Q : A -> Prop) (e : Exn) : returns Q (throw e).
Proof. by intros w. Qed.

Lemma returns_bind {A B} (Q' : A -> Prop) (Q : B -> Prop) (m : M A) (k : A -> M B) :
  returns Q' m -> (forall a, Q' a -> returns Q (k a)) -> returns Q (bind m k).
Proof.
  intros Hm Hk w. unfold bind. specialize (Hm w).
  destruct (m w) as [[a|e] w1]; simpl in *; [by apply Hk | exact I].
Qed.

Lemma returns_bind_any {A B} (Q : B -> Prop) (m : M A) (k : A -> M B) :
  (forall a, returns Q (k a)) -> returns Q (bind m k).
Proof.
  intros Hk. apply (returns_bind (fun _ => True)); [|auto].
  intros w. by destruct ((m w).1).
Qed.

Lemma result_is_returns (P : Response -> Prop) (m : M Response) :
  result_is P m -> returns P m.
Proof. intros H w. destruct (H w) as (r & w' & -> & Hr). exact Hr. Qed.

Lemma result_is_weaken (P P' : Response -> Prop) (m : M Response) :
  (forall r, P r -> P' r) -> result_is P m -> result_is P' m.
Proof. intros HP H w. destruct (H w) as (r & w' & Hm & Hr). exists r, w'. auto. Qed.

Lemma result_is_try_catch (P : Response -> Prop) (m : M Response) (h : Exn -> M Response) :
  returns P m -> (forall e, result_is P (h e)) -> result_is P (try_catch m h).
Proof.
  intros Hm Hh w. unfold try_catch. specialize (Hm w).
  destruct (m w) as [[r|e] w1]; simpl in Hm.
  - by exists r, w1.
  - apply Hh.
Qed.

Lemma result_is_protected (P : Response -> Prop) (m : M Response) (h : Exn -> M Response) :
  result_is P m -> result_is P (try_catch m h).
Proof.
  intros Hm w. unfold try_catch. destruct (Hm w) as (r & w' & -> & Hr). by exists r, w'.
Qed.

Lemma result_is_sendResponse (data : Val) (message : option string) :
  is_present data = true -> result_is success_200 (sendResponse rt data message).
Proof.
  intros Hdata w. eexists. eexists. split; [reflexivity|].
  split; [reflexivity|]. split; [reflexivity|]. unfold enveloped. simpl. exact Hdata.
Qed.

Lemma result_is_sendError (statusCode : Z) (message : string) (code : option string)
    (details : option Val) :
  result_is enveloped (sendError rt statusCode message code details).
Proof. intros w. eexists. eexists. split; reflexivity. Qed.

Lemma success_enveloped (r : Response) : success_200 r -> enveloped r.
Proof. by intros (_ & _ & H). Qed.

Lemma player_profile_present (userId : string) (userInfo friendsCount avatarThumbnail : Val) :
  returns (fun v => is_present v = true)
    (player_profile userId userInfo friendsCount avatarThumbnail).
Proof.
  unfold player_profile.
  repeat (apply returns_bind_any; intros ?). by apply returns_ret.
Qed.

Lemma game_stats_present (gameId : string) (game : Val) :
  returns (fun v => is_present v = true) (game_stats gameId game).
Proof.
  unfold game_stats.
  repeat (apply returns_bind_any; intros ?). by apply returns_ret.
Qed.

Lemma group_info_present (groupData : Val) :
  returns (fun v => is_present v = true) (group_info groupData).
Proof.
  unfold group_info.
  repeat (apply returns_bind_any; intros ?). by apply returns_ret.
Qed.

Lemma fetching_handlers_succeed (req : Request) :
  result_is success_200 (player_handler rt req) /\
  result_is success_200 (game_stats_handler rt req) /\
  result_is success_200 (group_handler rt req).
Proof.
  split; [|split].
  - unfold player_handler. apply result_is_protected, result_is_try_catch.
    + apply returns_bind_any; intros userInfo.
      apply returns_bind_any; intros [friendsData avatarData].
      apply returns_bind_any; intros friendsCount.
      apply returns_bind_any; intros avatarThumbnail.
      eapply returns_bind; [apply player_profile_present|].
      intros profile Hp. by apply result_is_returns, result_is_sendResponse.
    + intros e w. eexists. eexists. split; [reflexivity|]. by repeat split.
  - unfold game_stats_handler. apply result_is_protected, result_is_try_catch.
    + apply returns_bind_any; intros gameData.
      apply returns_bind_any; intros [|]; [|apply returns_throw].
      apply returns_bind_any; intros data.
      apply returns_bind_any; intros game.
      eapply returns_bind; [apply game_stats_present|].
      intros stats Hs. by apply result_is_returns, result_is_sendResponse.
    + intros e w. eexists. eexists. split; [reflexivity|]. by repeat split.
  - unfold group_handler. apply result_is_protected, result_is_try_catch.
    + apply returns_bind_any; intros groupData.
      eapply returns_bind; [apply group_info_present|].
      intros info Hi. by apply result_is_returns, result_is_sendResponse.
    + intros e w. eexists. eexists. split; [reflexivity|]. by repeat split.
Qed.

(** The handlers of the player, game and group routes always answer with
    the status 200 and [success: true], whatever the upstream does and
    whatever the table holds: a failure of the upstream, or a document
    that cannot be read, becomes mock data, and the 500 responses of
    lines 196, 262 and 313 are never sent. *)
Theorem fetching_handlers_always_succeed (req : Request) :
  result_is success_200 (player_handler rt req) /\
  result_is success_200 (game_stats_handler rt req) /\
  result_is success_200 (group_handler rt req).
Proof. apply fetching_handlers_succeed. Qed.

(** Every handler always sends a response, never throws, and the body it
    sends has the envelope: a boolean [success], a string [timestamp],
    and [message] and [data] or [error] and [code]. *)
Theorem handlers_send_envelopes (req : Request) (uptime : Q) (error : Exn) :
  result_is enveloped (health_handler rt uptime) /\
  result_is enveloped (player_handler rt req) /\
  result_is enveloped (game_stats_handler rt req) /\
  result_is enveloped (group_handler rt req) /\
  result_is enveloped (avatar_handler rt req) /\
  result_is enveloped (asset_handler rt req) /\
  result_is enveloped (limited_handler rt req) /\
  result_is enveloped (mutual_handler rt req) /\
  result_is enveloped (leaderboard_handler rt req) /\
  result_is enveloped (events_handler rt req) /\
  result_is enveloped (not_found_handler rt) /\
  result_is enveloped (global_error_handler rt error).
Proof.
  destruct (fetching_handlers_succeed req) as (Hplayer & Hgame & Hgroup).
  assert (Hcaught : forall (m : M Response) status message code,
            returns enveloped m ->
            result_is enveloped
              (try_catch m (fun e => sendError rt status message code
                                       (Some (VStr (exn_message e)))))).
  { intros m status message code Hm. apply result_is_try_catch; [exact Hm|].
    intros e. apply result_is_sendError. }
  assert (Hsend : forall data message,
            is_present data = true -> returns enveloped (sendResponse rt data message)).
  { intros data message Hd. apply result_is_returns.
    apply (result_is_weaken success_200); [apply success_enveloped|].
    by apply result_is_sendResponse. }
  repeat match goal with |- _ /\ _ => split end.
  - intros w. eexists. eexists. split; [reflexivity|]. done.
  - apply (result_is_weaken success_200); [apply success_enveloped | exact Hplayer].
  - apply (result_is_weaken success_200); [apply success_enveloped | exact Hgame].
  - apply (result_is_weaken success_200); [apply success_enveloped | exact Hgroup].
  - unfold avatar_handler. apply Hcaught.
    apply result_is_returns, result_is_try_catch.
    + apply returns_bind_any; intros avatarData.
      apply returns_bind_any; intros [|]; [|apply returns_throw].
      repeat first [ by apply Hsend | apply returns_bind_any; intros ? ].
    + intros e. apply (result_is_weaken success_200); [apply success_enveloped|].
      by apply result_is_sendResponse.
  - unfold asset_handler. apply Hcaught.
    repeat first [ by apply Hsend | apply returns_bind_any; intros ? ].
  - unfold limited_handler. apply Hcaught.
    repeat first [ by apply Hsend | apply returns_bind_any; intros ? ].
  - unfold mutual_handler. apply Hcaught.
    repeat first [ by apply Hsend | apply returns_bind_any; intros ? ].
  - unfold leaderboard_handler. apply Hcaught.
    repeat first [ by apply Hsend | apply returns_bind_any; intros ? ].
  - unfold events_handler. apply Hcaught.
    repeat first [ by apply Hsend | apply returns_bind_any; intros ? ].
  - apply result_is_sendError.
  - apply result_is_sendError.
Qed.

(** ** The generated data *)

Lemma advance_zero (w : World) : advance 0 w = w.
Proof. by destruct w. Qed.

(** [Array.from] with a callback that draws [k] numbers and whose value
    at the index [i] has [P i]. *)
Lemma map_indices_run (f : nat -> M Val) (k : nat) (P : nat -> Val -> Prop) :
  (forall i w, exists x, f i w = (Ok x, advance k w) /\ P i x) ->
  forall n i w, exists l,
    map_indices f n i w = (Ok l, advance (k * n) w) /\ Forall2 P (seq i n) l.
Proof.
  intros Hf. induction n as [|n IH]; intros i w.
  - exists []. rewrite Nat.mul_0_r, advance_zero. split; [reflexivity | constructor].
  - destruct (Hf i w) as (x & Hx & Px).
    destruct (IH (S i) (advance k w)) as (l & Hl & Pl).
    exists (x :: l). split; [|by constructor].
    cbn [map_indices]. unfold bind at 1. rewrite Hx.
    unfold bind at 1. rewrite Hl. unfold ret.
    rewrite advance_advance. do 2 f_equal. lia.
Qed.

Lemma Array_from_length_run (f : nat -> M Val) (k : nat) (P : nat -> Val -> Prop)
    (len : Z) (w : World) :
  len <= 4294967295 ->
  (forall i w, exists x, f i w = (Ok x, advance k w) /\ P i x) ->
  exists l,
    Array_from_length len f w = (Ok l, advance (k * Z.to_nat len) w) /\
    Forall2 P (seq 0 (Z.to_nat len)) l.
Proof.
  intros Hlen Hf. unfold Array_from_length.
  assert (H : (4294967295 <? len) = false) by (apply Z.ltb_ge; lia).
  rewrite H. by apply map_indices_run.
Qed.

Lemma Forall2_seq_length (P : nat -> Val -> Prop) (i n : nat) (l : list Val) :
  Forall2 P (seq i n) l -> length l = n.
Proof. intros H. apply Forall2_length in H. by rewrite length_seq in H. Qed.

Lemma leaderboard_entry_ranked (limit : Z) (i : nat) (w : World) :
  exists x, leaderboard_entry rt limit i w = (Ok x, advance 3 w) /\ ranked limit i x.
Proof.
  unfold leaderboard_entry.
  destruct (random_below_bounds 1000000 w) as (id & Hid & _); [lia|].
  destruct (random_below_bounds 1000000 (drawn w)) as (score & Hscore & Bscore); [lia|].
  destruct (random_below_bounds 1000000 (drawn (drawn w))) as (th & Hth & _); [lia|].
  unfold bind at 1. rewrite Hid. unfold bind at 1. rewrite Hscore.
  unfold bind at 1. rewrite Hth. unfold ret.
  eexists. split; [reflexivity|]. split; [reflexivity|].
  exists (score + (limit - Z.of_nat i) * 1000). split; [reflexivity | lia].
Qed.

(** The leaderboard lists the ranks 1, 2, ... in order, one entry for
    each of the [limit] places, and the score of the entry at the index
    [i] lies between [(limit - i) * 1000] and that plus 999999.  Without
    a [limit] in the query there are 50 places. *)
Theorem leaderboard_ranks_and_scores (req : Request) (w : World) :
  leaderboard_limit req <= 4294967295 ->
  (exists entries,
     response_data (leaderboard_handler rt req w).1
     = VObj [("gameId", number (parseInt (req_params req "gameId")));
             ("leaderboard", VArr entries);
             ("totalEntries", VInt (leaderboard_limit req));
             ("lastUpdated", VStr (toISOString rt (now w)))] /\
     Forall2 (ranked (leaderboard_limit req))
       (seq 0 (Z.to_nat (leaderboard_limit req))) entries) /\
  (req_query req "limit" = None -> leaderboard_limit req = 50).
Proof.
  intros Hlen. split.
  - destruct (Array_from_length_run (leaderboard_entry rt (leaderboard_limit req)) 3
                (ranked (leaderboard_limit req)) (leaderboard_limit req) w Hlen
                (leaderboard_entry_ranked (leaderboard_limit req)))
      as (entries & Hrun & Hentries).
    exists entries. split; [|exact Hentries].
    unfold leaderboard_handler, try_catch. unfold bind at 1. by rewrite Hrun.
  - intros Hnone. unfold leaderboard_limit. by rewrite Hnone.
Qed.

Lemma limited_sale_listed (i : nat) (w : World) :
  exists x, limited_sale rt i w = (Ok x, advance 4 w) /\ listed_sale i x.
Proof.
  unfold limited_sale.
  destruct (random_below_bounds 1000000 w) as (id & Hid & _); [lia|].
  destruct (random_below_bounds 100000 (drawn w)) as (seller & Hseller & _); [lia|].
  destruct (random_below_bounds 10000 (drawn (drawn w))) as (price & Hprice & Bprice); [lia|].
  unfold bind at 1. rewrite Hid. unfold bind at 1. rewrite Hseller.
  unfold bind at 1. rewrite Hprice.
  eexists. split; [reflexivity|]. split; [reflexivity|].
  exists (price + 100). split; [reflexivity | lia].
Qed.

Lemma volume_point_entry (i : nat) (w : World) :
  exists x, volume_point rt i w = (Ok x, advance 1 w) /\ volume_entry i x.
Proof.
  unfold volume_point.
  destruct (random_below_bounds 50 w) as (value & Hvalue & Bvalue); [lia|].
  unfold bind at 1. rewrite Hvalue.
  eexists. split; [reflexivity|]. by exists value.
Qed.

(** The market data of a limited item always has ten recent sales with
    the serial numbers 1 to 10 and prices from 100 to 10099, a price
    history with one point for each of these sales, thirty volume points
    with values from 0 to 49, an average price from 500 to 5499 and an
    original price from 100 to 1099; it costs 72 random draws. *)
Theorem limited_market_data (req : Request) (w : World) :
  exists sales volume average original,
    response_data (limited_handler rt req w).1
    = VObj [("assetId", number (parseInt (req_params req "assetId")));
            ("name", VStr ("Limited Item " +:+ req_params req "assetId"));
            ("recentAveragePrice", VInt average);
            ("originalPrice", VInt original);
            ("priceDataPoints", VArr (List.map price_point sales));
            ("volumeDataPoints", VArr volume);
            ("recentSales", VArr sales)] /\
    Forall2 listed_sale (seq 0 10) sales /\
    Forall2 volume_entry (seq 0 30) volume /\
    500 <= average < 5500 /\
    100 <= original < 1100 /\
    draws (limited_handler rt req w).2 = (72 + draws w)%nat.
Proof.
  destruct (Array_from_length_run (limited_sale rt) 4 listed_sale 10 w ltac:(lia)
              limited_sale_listed) as (sales & Hsales & Psales).
  change (Z.to_nat 10) with 10%nat in *.
  set (w1 := advance (4 * 10) w) in *.
  destruct (random_below_bounds 5000 w1) as (avg & Havg & Bavg); [lia|].
  destruct (random_below_bounds 1000 (drawn w1)) as (orig & Horig & Borig); [lia|].
  destruct (Array_from_length_run (volume_point rt) 1 volume_entry 30 (drawn (drawn w1))
              ltac:(lia) volume_point_entry) as (volume & Hvolume & Pvolume).
  change (Z.to_nat 30) with 30%nat in *.
  exists sales, volume, (avg + 500), (orig + 100).
  assert (Hrun : limited_handler rt req w
    = sendResponse rt
        (VObj [("assetId", number (parseInt (req_params req "assetId")));
               ("name", VStr ("Limited Item " +:+ req_params req "assetId"));
               ("recentAveragePrice", VInt (avg + 500));
               ("originalPrice", VInt (orig + 100));
               ("priceDataPoints", VArr (List.map price_point sales));
               ("volumeDataPoints", VArr volume);
               ("recentSales", VArr sales)]) None
        (advance (1 * 30) (drawn (drawn w1)))).
  { unfold limited_handler, try_catch.
    unfold bind at 1. rewrite Hsales.
    unfold bind at 1. rewrite Havg.
    unfold bind at 1. rewrite Horig.
    unfold bind at 1. rewrite Hvolume.
    reflexivity. }
  rewrite Hrun. split; [reflexivity|].
  split; [exact Psales|]. split; [exact Pvolume|].
  split; [lia|]. split; [lia|]. reflexivity.
Qed.

Lemma mutual_friend_named (i : nat) (w : World) :
  exists x, mutual_friend rt i w = (Ok x, advance 2 w) /\ named_friend i x.
Proof. eexists. split; reflexivity. Qed.

(** The list of mutual friends has from 0 to 19 entries, named
    [MutualFriend1], [MutualFriend2], ... in order, and the count that
    is sent beside it is the length of the list. *)
Theorem mutual_friends_count (req : Request) (w : World) :
  exists friends,
    response_data (mutual_handler rt req w).1
    = VObj [("userId", number (parseInt (req_params req "userId")));
            ("otherUserId", number (parseInt (req_params req "otherUserId")));
            ("mutualFriendsCount", VInt (Z.of_nat (length friends)));
            ("mutualFriends", VArr friends)] /\
    (length friends < 20)%nat /\
    Forall2 named_friend (seq 0 (length friends)) friends /\
    draws (mutual_handler rt req w).2 = (1 + 2 * length friends + draws w)%nat.
Proof.
  destruct (random_below_bounds 20 w) as (count & Hcount & Bcount); [lia|].
  destruct (Array_from_length_run (mutual_friend rt) 2 named_friend count (drawn w)
              ltac:(lia) mutual_friend_named) as (friends & Hfriends & Pfriends).
  pose proof (Forall2_seq_length _ _ _ _ Pfriends) as Hlen.
  exists friends.
  assert (Hrun : mutual_handler rt req w
    = sendResponse rt
        (VObj [("userId", number (parseInt (req_params req "userId")));
               ("otherUserId", number (parseInt (req_params req "otherUserId")));
               ("mutualFriendsCount", VInt (Z.of_nat (length friends)));
               ("mutualFriends", VArr friends)]) None
        (advance (2 * Z.to_nat count) (drawn w))).
  { unfold mutual_handler, try_catch.
    unfold bind at 1. rewrite Hcount.
    unfold bind at 1. rewrite Hfriends.
    reflexivity. }
  rewrite Hrun. split; [reflexivity|].
  split; [lia|]. split; [by rewrite Hlen|]. simpl. lia.
Qed.

Lemma event_type_named (z : Z) :
  0 <= z < 4 -> exists name, In name event_types /\ event_type z = VStr name.
Proof.
  intros Hz.
  assert (H : z = 0 \/ z = 1 \/ z = 2 \/ z = 3) by lia.
  destruct H as [-> | [-> | [-> | ->]]]; eexists; (split; [|reflexivity]); simpl; auto.
Qed.

Lemma latest_event_typed (i : nat) (w : World) :
  exists x, latest_event rt i w = (Ok x, advance 5 w) /\ typed_event i x.
Proof.
  unfold latest_event.
  destruct (random_below_bounds 4 (drawn (drawn w))) as (type & Htype & Btype); [lia|].
  destruct (event_type_named type Btype) as (name & Hin & Hname).
  unfold bind at 1, Date_now at 1. unfold bind at 1, Math_random at 1.
  unfold bind at 1, Date_now at 1. unfold bind at 1, Math_random at 1.
  unfold bind at 1. rewrite Htype.
  eexists. split; [reflexivity|]. split; [reflexivity|].
  exists name. split; [exact Hin|]. simpl. exact Hname.
Qed.

(** The list of events has one event for each of the [limit] places,
    numbered 1, 2, ... in order, the type of every event is one of
    [Featured], [Social], [Building] and [Sponsored], never missing, and
    the count that is sent is the length of the list.  Without a [limit]
    in the query there are 10 places. *)
Theorem latest_events_list (req : Request) (w : World) :
  events_limit req <= 4294967295 ->
  (exists events,
     response_data (events_handler rt req w).1
     = VObj [("events", VArr events);
             ("count", VInt (Z.of_nat (length events)));
             ("lastUpdated", VStr (toISOString rt (now w)))] /\
     length events = Z.to_nat (events_limit req) /\
     Forall2 typed_event (seq 0 (Z.to_nat (events_limit req))) events) /\
  (req_query req "limit" = None -> events_limit req = 10).
Proof.
  intros Hlen. split.
  - destruct (Array_from_length_run (latest_event rt) 5 typed_event (events_limit req) w
                Hlen latest_event_typed) as (events & Hrun & Pevents).
    exists events. split; [|split; [|exact Pevents]].
    + unfold events_handler, try_catch. unfold bind at 1. by rewrite Hrun.
    + by apply Forall2_seq_length in Pevents.
  - intros Hnone. unfold events_limit. by rewrite Hnone.
Qed.

(** ** The fetching handlers and the cache *)

(** A call that is not answered from the cache and whose outbound call
    resolves, as one equation. *)
Lemma fetch_resolved (url k : string) (ttl : option Z) (w : World) (resp : HttpResponse) :
  k <> "" ->
  table_has (cache w) (now w) k = false ->
  outcome (next_reply rt url w) = Resolve resp ->
  fetchFromRobloxAPI rt url (Some k) ttl w
  = (Ok (resp_data resp), (fetchFromRobloxAPI rt url (Some k) ttl w).2).
Proof.
  intros Hk Hmiss Hres.
  rewrite fetch_unfold, (truthy_key_some k Hk), Hmiss, Hres. reflexivity.
Qed.

Lemma fetch_rejected (url k : string) (ttl : option Z) (w : World) (e : Exn) :
  k <> "" ->
  table_has (cache w) (now w) k = false ->
  outcome (next_reply rt url w) = Reject e ->
  fetchFromRobloxAPI rt url (Some k) ttl w
  = (Throw (rethrow e), after_call rt url w (record (CacheHas k) w)).
Proof.
  intros Hk Hmiss Hrej.
  rewrite fetch_unfold, (truthy_key_some k Hk), Hmiss, Hrej. reflexivity.
Qed.

(** The group handler once its fetch returned an object. *)
Lemma group_handler_serves (req : Request) (w w1 : World) (props : list (string * Val)) :
  fetchFromRobloxAPI rt (group_url (req_params req "groupId"))
    (Some ("group_" +:+ req_params req "groupId")) None w = (Ok (VObj props), w1) ->
  group_handler rt req w
  = (Ok {| res_status := 200;
           res_body :=
             VObj [("success", VBool true);
                   ("message", VStr "Success");
                   ("data",
                    VObj [("id", own_property props "id");
                          ("name", own_property props "name");
                          ("description", own_property props "description");
                          ("owner", own_property props "owner");
                          ("shout", own_property props "shout");
                          ("memberCount", own_property props "memberCount");
                          ("isBuildersClubOnly", own_property props "isBuildersClubOnly");
                          ("publicEntryAllowed", own_property props "publicEntryAllowed");
                          ("hasVerifiedBadge",
                           js_or (own_property props "hasVerifiedBadge") (VBool false))]);
                   ("timestamp", VStr (toISOString rt (now w1)))] |}, w1).
Proof.
  intros Hfetch. unfold group_handler, try_catch.
  unfold bind at 1. rewrite Hfetch. reflexivity.
Qed.

(** When the upstream rejects the call of the group handler, the
    response is the mock group with the status 200, one outbound call
    was made, and nothing is stored: the next request asks the upstream
    again. *)
Theorem group_fallback_not_cached (req : Request) (w : World) (e : Exn) :
  table_has (cache w) (now w) ("group_" +:+ req_params req "groupId") = false ->
  outcome (next_reply rt (group_url (req_params req "groupId")) w) = Reject e ->
  (exists members,
     (group_handler rt req w).1
     = Ok {| res_status := 200;
             res_body :=
               VObj [("success", VBool true);
                     ("message", VStr "Success");
                     ("data", mock_group (req_params req "groupId") members);
                     ("timestamp",
                      VStr (toISOString rt
                              (now w + Z.of_N (latency (next_reply rt
                                 (group_url (req_params req "groupId")) w)))))] |} /\
     0 <= members < 10000) /\
  cache (group_handler rt req w).2 = cache w /\
  outbound_calls (trace (group_handler rt req w).2)
  = outbound_calls (trace w) ++ [HttpGet (group_url (req_params req "groupId")) roblox_config].
Proof.
  intros Hmiss Hrej.
  pose proof (fetch_rejected (group_url (req_params req "groupId"))
                ("group_" +:+ req_params req "groupId") None w e
                ltac:(discriminate) Hmiss Hrej) as Hfetch.
  set (w1 := after_call rt (group_url (req_params req "groupId")) w
               (record (CacheHas ("group_" +:+ req_params req "groupId")) w)) in *.
  destruct (random_below_bounds 10000 w1) as (members & Hmembers & Bmembers); [lia|].
  assert (Hrun : group_handler rt req w
    = sendResponse rt (mock_group (req_params req "groupId") members) None (drawn w1)).
  { unfold group_handler, try_catch.
    unfold bind at 1. rewrite Hfetch.
    unfold bind at 1. by rewrite Hmembers. }
  rewrite Hrun. split; [|split].
  - exists members. by split.
  - reflexivity.
  - simpl. rewrite !outbound_calls_app. simpl. by rewrite List.app_nil_r.
Qed.

(** After the group handler fetched and stored an object, a request for
    the same group up to 300 seconds after the store is answered with
    the same data without any outbound call. *)
Theorem group_repeat_served_from_cache (req : Request) (w w2 : World)
    (resp : HttpResponse) (props : list (string * Val)) :
  table_has (cache w) (now w) ("group_" +:+ req_params req "groupId") = false ->
  outcome (next_reply rt (group_url (req_params req "groupId")) w) = Resolve resp ->
  resp_data resp = VObj props ->
  cache w2 !! ("group_" +:+ req_params req "groupId")
    = cache (group_handler rt req w).2 !! ("group_" +:+ req_params req "groupId") ->
  now w2 <= now (group_handler rt req w).2 + 300000 ->
  response_data (group_handler rt req w2).1 = response_data (group_handler rt req w).1 /\
  is_present (response_data (group_handler rt req w).1) = true /\
  outbound_calls (trace (group_handler rt req w2).2) = outbound_calls (trace w2) /\
  cache (group_handler rt req w2).2 = cache w2.
Proof.
  intros Hmiss Hres Hprops Hsame Hfresh.
  pose proof (fetch_resolved (group_url (req_params req "groupId"))
                ("group_" +:+ req_params req "groupId") None w resp
                ltac:(discriminate) Hmiss Hres) as Hfetch.
  rewrite Hprops in Hfetch.
  rewrite (group_handler_serves req w _ props Hfetch) in *.
  cbn [snd] in Hsame, Hfresh.
  destruct (fetch_hit_after_store rt w w2 (group_url (req_params req "groupId"))
              (group_url (req_params req "groupId"))
              ("group_" +:+ req_params req "groupId") None None resp
              ltac:(discriminate) Hmiss Hres Hsame Hfresh) as (Hval & Hcalls & Hcache).
  rewrite Hprops in Hval.
  rewrite (group_handler_serves req w2
             (fetchFromRobloxAPI rt (group_url (req_params req "groupId"))
                (Some ("group_" +:+ req_params req "groupId")) None w2).2 props).
  - by repeat split.
  - rewrite <- Hval. by destruct (fetchFromRobloxAPI _ _ _ _ w2).
Qed.

(** When the upstream answers the game handler with a document that
    lists no game, the response is the mock game with the status 200,
    and the document is stored all the same: for the next 300 seconds
    requests for this game get mock data without any outbound call. *)
Theorem game_not_found_is_cached (req : Request) (w w2 : World) (resp : HttpResponse) :
  table_has (cache w) (now w) ("game_stats_" +:+ req_params req "gameId") = false ->
  outcome (next_reply rt (game_url (req_params req "gameId")) w) = Resolve resp ->
  (forall w', has_items rt (resp_data resp) w' = (Ok false, w')) ->
  cache w2 !! ("game_stats_" +:+ req_params req "gameId")
    = cache (game_stats_handler rt req w).2 !! ("game_stats_" +:+ req_params req "gameId") ->
  now w2 <= now (game_stats_handler rt req w).2 + 300000 ->
  own_property_of (response_data (game_stats_handler rt req w).1) "name"
    = VStr ("Game " +:+ req_params req "gameId") /\
  cache (game_stats_handler rt req w).2 !! ("game_stats_" +:+ req_params req "gameId")
    = Some {| entry_value := resp_data resp;
              entry_expiry := now (game_stats_handler rt req w).2 + 300000 |} /\
  own_property_of (response_data (game_stats_handler rt req w2).1) "name"
    = VStr ("Game " +:+ req_params req "gameId") /\
  outbound_calls (trace (game_stats_handler rt req w2).2) = outbound_calls (trace w2).
Proof.
  intros Hmiss Hres Hnone Hsame Hfresh.
  assert (Hrun : forall v v1,
    fetchFromRobloxAPI rt (game_url (req_params req "gameId"))
      (Some ("game_stats_" +:+ req_params req "gameId")) None v = (Ok (resp_data resp), v1) ->
    game_stats_handler rt req v = game_stats_fallback rt (req_params req "gameId") v1).
  { intros v v1 Hfetch. unfold game_stats_handler, try_catch.
    unfold bind at 1. fold (game_url (req_params req "gameId")). rewrite Hfetch.
    unfold bind at 1. by rewrite Hnone. }
  pose proof (fetch_resolved (game_url (req_params req "gameId"))
                ("game_stats_" +:+ req_params req "gameId") None w resp
                ltac:(discriminate) Hmiss Hres) as Hfetch.
  rewrite (Hrun w _ Hfetch) in *.
  cbn [snd game_stats_fallback] in Hsame, Hfresh.
  change (now (game_stats_fallback rt (req_params req "gameId") ?v).2) with (now v) in *.
  assert (Hentry :
    cache (fetchFromRobloxAPI rt (game_url (req_params req "gameId"))
             (Some ("game_stats_" +:+ req_params req "gameId")) None w).2
      !! ("game_stats_" +:+ req_params req "gameId")
    = Some {| entry_value := resp_data resp;
              entry_expiry :=
                now (fetchFromRobloxAPI rt (game_url (req_params req "gameId"))
                       (Some ("game_stats_" +:+ req_params req "gameId")) None w).2
                + 300000 |}).
  { rewrite fetch_unfold, truthy_key_some, Hmiss, Hres by discriminate.
    simpl. unfold table_set. by rewrite lookup_insert_eq. }
  destruct (fetch_hit_after_store rt w w2 (game_url (req_params req "gameId"))
              (game_url (req_params req "gameId"))
              ("game_stats_" +:+ req_params req "gameId") None None resp
              ltac:(discriminate) Hmiss Hres Hsame Hfresh) as (Hval & Hcalls & Hcache).
  rewrite (Hrun w2 (fetchFromRobloxAPI rt (game_url (req_params req "gameId"))
                      (Some ("game_stats_" +:+ req_params req "gameId")) None w2).2).
  - split; [reflexivity|]. split; [exact Hentry|]. split; [reflexivity|]. exact Hcalls.
  - rewrite <- Hval. by destruct (fetchFromRobloxAPI _ _ _ _ w2).
Qed.

Lemma keyless_fetch_effects (url : string) (w : World) :
  trace (fetchFromRobloxAPI rt url None None w).2 = trace w ++ [HttpGet url roblox_config] /\
  cache (fetchFromRobloxAPI rt url None None w).2 = cache w.
Proof.
  rewrite fetch_unfold. simpl. by destruct (outcome (next_reply rt url w)).
Qed.

(** The two auxiliary calls of the player handler: both are made, in
    this order, whatever the table holds, and the table is left alone. *)
Lemma auxiliary_calls (u1 u2 : string) (w : World) :
  exists s1 s2 w',
    allSettled2 (fetchFromRobloxAPI rt u1 None None) (fetchFromRobloxAPI rt u2 None None) w
    = (Ok (s1, s2), w') /\
    trace w' = trace w ++ [HttpGet u1 roblox_config; HttpGet u2 roblox_config] /\
    cache w' = cache w.
Proof.
  unfold allSettled2.
  destruct (keyless_fetch_effects u1 w) as (Ht1 & Hc1).
  destruct (fetchFromRobloxAPI rt u1 None None w) as [r1 w1] eqn:E1.
  destruct (keyless_fetch_effects u2 (at_time (now w) w1)) as (Ht2 & Hc2).
  destruct (fetchFromRobloxAPI rt u2 None None (at_time (now w) w1)) as [r2 w2] eqn:E2.
  simpl in *. eexists. eexists. eexists. split; [reflexivity|]. simpl.
  split.
  - rewrite Ht2, Ht1. by rewrite <- List.app_assoc.
  - by rewrite Hc2, Hc1.
Qed.

Lemma quiet_avatar_thumbnail (userId : string) (avatarData : Settled) :
  quiet (avatar_thumbnail rt userId avatarData).
Proof.
  unfold avatar_thumbnail. destruct avatarData as [value|reason]; [|apply quiet_ret].
  apply quiet_bind; [apply quiet_lift|]. intros data.
  apply quiet_bind; [apply quiet_lift|]. intros len.
  destruct (js_gt0 rt len); repeat quiet_step.
Qed.

Lemma quiet_player_profile (userId : string) (userInfo friendsCount avatarThumbnail : Val) :
  quiet (player_profile userId userInfo friendsCount avatarThumbnail).
Proof.
  unfold player_profile.
  apply quiet_bind; [apply quiet_lift|]. intros name1.
  apply quiet_bind;
    [unfold or_else; destruct (truthy name1); [apply quiet_ret | apply quiet_lift]|].
  intros username. repeat quiet_step.
Qed.

(** The outbound calls of the player handler.  When the fetch of the
    user info throws, no auxiliary call is made; when it returns, from
    the cache or from the upstream, the friends call and then the
    thumbnail call are always made (they are never cached), whatever
    they answer.  Nothing but the fetch of the user info writes the
    table. *)
Theorem player_outbound_calls (req : Request) (w : World) :
  cache (player_handler rt req w).2
  = cache (fetchFromRobloxAPI rt (users_url (req_params req "userId"))
             (Some ("player_" +:+ req_params req "userId")) None w).2 /\
  outbound_calls (trace (player_handler rt req w).2)
  = outbound_calls
      (trace (fetchFromRobloxAPI rt (users_url (req_params req "userId"))
                (Some ("player_" +:+ req_params req "userId")) None w).2)
    ++ match (fetchFromRobloxAPI rt (users_url (req_params req "userId"))
                (Some ("player_" +:+ req_params req "userId")) None w).1 with
       | Ok _ =>
           [HttpGet (friends_url (req_params req "userId")) roblox_config;
            HttpGet (headshot_url (req_params req "userId") "150x150") roblox_config]
       | Throw _ => []
       end.
Proof.
  unfold player_handler, users_url.
  set (main := fetchFromRobloxAPI rt _ _ None).
  set (aux := allSettled2 _ _).
  destruct (main w) as [[userInfo|e] w1] eqn:Hmain.
  - destruct (auxiliary_calls (friends_url (req_params req "userId"))
                (headshot_url (req_params req "userId") "150x150") w1)
      as (s1 & s2 & w3 & Haux & Ht & Hc).
    change (allSettled2 _ _ w1) with (aux w1) in Haux.
    match goal with
    | |- context [try_catch (try_catch (bind main ?K) ?h1) ?h2 w] =>
        assert (Hrun : try_catch (try_catch (bind main K) h1) h2 w
                       = try_catch (try_catch (K userInfo) h1) h2 w1)
          by (unfold try_catch at 1 2 3 4, bind at 1; by rewrite Hmain)
    end.
    rewrite Hrun. clear Hrun. cbn [fst snd].
    match goal with
    | |- context [try_catch (try_catch (bind aux ?K) ?h1) ?h2 w1] =>
        assert (Hrun : try_catch (try_catch (bind aux K) h1) h2 w1
                       = try_catch (try_catch (K (s1, s2)) h1) h2 w3)
          by (unfold try_catch at 1 2 3 4, bind at 1; by rewrite Haux);
        assert (Hq : quiet (try_catch (try_catch (K (s1, s2)) h1) h2))
    end.
    { apply quiet_try_catch; [|intros ?; apply quiet_sendError].
      apply quiet_try_catch; [|intros ?; repeat quiet_step].
      apply quiet_bind; [apply quiet_lift|]. intros friendsCount.
      apply quiet_bind; [apply quiet_avatar_thumbnail|]. intros avatarThumbnail.
      apply quiet_bind; [apply quiet_player_profile|]. intros profile.
      apply quiet_sendResponse. }
    rewrite Hrun. destruct (Hq w3) as (Ht3 & Hc3 & _).
    rewrite Ht3, Hc3, Ht, Hc. split; [reflexivity|].
    rewrite outbound_calls_app. reflexivity.
  - match goal with
    | |- context [try_catch (try_catch (bind main ?K) ?h1) ?h2 w] =>
        assert (Hrun : try_catch (try_catch (bind main K) h1) h2 w
                       = try_catch (h1 e) h2 w1)
          by (unfold try_catch at 1 2 3, bind at 1; by rewrite Hmain);
        assert (Hq : quiet (try_catch (h1 e) h2))
    end.
    { apply quiet_try_catch; [|intros ?; apply quiet_sendError]. repeat quiet_step. }
    rewrite Hrun. destruct (Hq w1) as (Ht1 & Hc1 & _).
    rewrite Ht1, Hc1. cbn [fst snd]. by rewrite List.app_nil_r.
Qed.

(** ** The avatar handler *)

Lemma split_on_plain (c : ascii) (s : string) :
  has_char c s = false -> split_on c s = [s].
Proof.
  induction s as [|c' s IH]; [reflexivity|]. simpl.
  destruct (Ascii.eqb c' c) eqn:E; [discriminate|].
  simpl. intros Hs. by rewrite (IH Hs).
Qed.

(** Splitting at a separator gives back the two parts that were joined
    with it, when the parts do not contain it. *)
Lemma split_on_joined (c : ascii) (a b : string) :
  has_char c a = false -> has_char c b = false ->
  split_on c (a +:+ String c b) = [a; b].
Proof.
  intros Ha Hb. induction a as [|c' a IH]; simpl.
  - rewrite Ascii.eqb_refl. by rewrite (split_on_plain c b Hb).
  - simpl in Ha. destruct (Ascii.eqb c' c) eqn:E; [discriminate|].
    simpl in Ha. by rewrite (IH Ha).
Qed.

(** When the upstream rejects the call of the avatar handler, the
    response has the status 200 and the fallback image whose width and
    height are the two numbers of the size, nothing is stored, and the
    size is 150x150 when the query gives none. *)
Theorem avatar_fallback_image (req : Request) (w : World) (e : Exn) (width height : string) :
  avatar_size req = width +:+ "x" +:+ height ->
  has_char "x" width = false ->
  has_char "x" height = false ->
  table_has (cache w) (now w) (avatar_key (req_params req "userId") (avatar_size req))
    = false ->
  outcome (next_reply rt (headshot_url (req_params req "userId") (avatar_size req)) w)
    = Reject e ->
  response_data (avatar_handler rt req w).1
  = VObj [("userId", number (parseInt (req_params req "userId")));
          ("imageUrl",
           VStr ("https://www.roblox.com/headshot-thumbnail/image?userId="
                 +:+ req_params req "userId" +:+ "&width=" +:+ width
                 +:+ "&height=" +:+ height));
          ("state", VStr "Completed");
          ("size", VStr (width +:+ "x" +:+ height))] /\
  cache (avatar_handler rt req w).2 = cache w /\
  (req_query req "size" = None -> avatar_size req = "150x150").
Proof.
  intros Hsize Hw Hh Hmiss Hrej.
  pose proof (fetch_rejected (headshot_url (req_params req "userId") (avatar_size req))
                (avatar_key (req_params req "userId") (avatar_size req)) None w e
                ltac:(discriminate) Hmiss Hrej) as Hfetch.
  assert (Hrun : avatar_handler rt req w
    = sendResponse rt
        (VObj [("userId", number (parseInt (req_params req "userId")));
               ("imageUrl",
                VStr (fallback_image (req_params req "userId") (avatar_size req)));
               ("state", VStr "Completed");
               ("size", VStr (avatar_size req))]) None
        (after_call rt (headshot_url (req_params req "userId") (avatar_size req)) w
           (record (CacheHas (avatar_key (req_params req "userId") (avatar_size req))) w))).
  { unfold avatar_handler, try_catch.
    unfold bind at 1. fold (headshot_url (req_params req "userId") (avatar_size req)).
    by rewrite Hfetch. }
  rewrite Hrun. split; [|split].
  - simpl. unfold fallback_image. rewrite Hsize.
    change (width +:+ "x" +:+ height) with (width +:+ String "x" height).
    by rewrite (split_on_joined "x" width height Hw Hh).
  - reflexivity.
  - intros Hnone. unfold avatar_size. by rewrite Hnone.
Qed.

(** ** The cache keys *)

Lemma joined_inj (c : ascii) (a b s t : string) :
  has_char c a = false -> has_char c b = false ->
  a +:+ String c s = b +:+ String c t -> a = b /\ s = t.
Proof.
  revert b. induction a as [|x a IH]; intros b Ha Hb Heq.
  - destruct b as [|y b]; simpl in *.
    + by injection Heq.
    + injection Heq as -> _. by rewrite Ascii.eqb_refl in Hb.
  - destruct b as [|y b]; simpl in *.
    + injection Heq as -> _. by rewrite Ascii.eqb_refl in Ha.
    + injection Heq as -> Heq.
      destruct (Ascii.eqb y c); [discriminate|]. simpl in *.
      destruct (IH b Ha Hb Heq) as [-> ->]. done.
Qed.

(** The texts of the keys: those of different routes differ whatever
    the parameters are, and a key gives back its parameters. *)
Lemma key_texts (a b s t : string) :
  "player_" +:+ a <> "game_stats_" +:+ b /\
  "player_" +:+ a <> "group_" +:+ b /\
  "player_" +:+ a <> avatar_key b t /\
  "game_stats_" +:+ a <> "group_" +:+ b /\
  "game_stats_" +:+ a <> avatar_key b t /\
  "group_" +:+ a <> avatar_key b t /\
  ("player_" +:+ a = "player_" +:+ b -> a = b) /\
  ("game_stats_" +:+ a = "game_stats_" +:+ b -> a = b) /\
  ("group_" +:+ a = "group_" +:+ b -> a = b) /\
  (has_char "_" a = false -> has_char "_" b = false ->
   avatar_key a s = avatar_key b t -> a = b /\ s = t).
Proof.
  repeat match goal with |- _ /\ _ => split end; try discriminate.
  - intros H. cbn in H. by injection H.
  - intros H. cbn in H. by injection H.
  - intros H. cbn in H. by injection H.
  - intros Ha Hb H. unfold avatar_key in H. cbn in H. injection H as H.
    by apply (joined_inj "_" a b s t).
Qed.

Lemma touched_keys_app (tr1 tr2 : list Event) :
  touched_keys (tr1 ++ tr2) = touched_keys tr1 ++ touched_keys tr2.
Proof. unfold touched_keys. apply omap_app. Qed.

Lemma keys_used_of_trace {A} (m : M A) (w : World) (tr : list Event) :
  trace (m w).2 = trace w ++ tr -> keys_used m w = touched_keys tr.
Proof. intros H. unfold keys_used. by rewrite H, drop_app_length. Qed.

Lemma keyed_quiet {A} (k : string) (m : M A) : quiet m -> keyed false k m.
Proof.
  intros Hq w. destruct (Hq w) as (Ht & Hc & _). exists [].
  split; [by rewrite List.app_nil_r|]. split; [discriminate|].
  split; [constructor|]. intros k' _. by rewrite Hc.
Qed.

Lemma keyed_bind {A B} (must : bool) (k : string) (m : M A) (f : A -> M B) :
  keyed must k m -> (forall a, keyed false k (f a)) -> keyed must k (bind m f).
Proof.
  intros Hm Hf w. unfold bind.
  destruct (Hm w) as (tr1 & Ht1 & Hn1 & Hk1 & Hc1).
  destruct (m w) as [[a|e] w1]; simpl in *.
  - destruct (Hf a w1) as (tr2 & Ht2 & _ & Hk2 & Hc2).
    exists (tr1 ++ tr2). rewrite Ht2, Ht1, touched_keys_app.
    split; [by rewrite <- List.app_assoc|].
    split.
    + intros Hmust Hnil. apply app_eq_nil in Hnil as [Hnil _]. by apply Hn1.
    + split; [by apply Forall_app|].
      intros k' Hk'. by rewrite Hc2, Hc1.
  - by exists tr1.
Qed.

Lemma keyed_try_catch {A} (must : bool) (k : string) (m : M A) (h : Exn -> M A) :
  keyed must k m -> (forall e, keyed false k (h e)) -> keyed must k (try_catch m h).
Proof.
  intros Hm Hh w. unfold try_catch.
  destruct (Hm w) as (tr1 & Ht1 & Hn1 & Hk1 & Hc1).
  destruct (m w) as [[a|e] w1]; simpl in *.
  - by exists tr1.
  - destruct (Hh e w1) as (tr2 & Ht2 & _ & Hk2 & Hc2).
    exists (tr1 ++ tr2). rewrite Ht2, Ht1, touched_keys_app.
    split; [by rewrite <- List.app_assoc|].
    split.
    + intros Hmust Hnil. apply app_eq_nil in Hnil as [Hnil _]. by apply Hn1.
    + split; [by apply Forall_app|].
      intros k' Hk'. by rewrite Hc2, Hc1.
Qed.

(** A fetch under a key that is not empty looks the key up, and touches
    the table under this key only. *)
Lemma keyed_fetch (url k : string) (ttl : option Z) :
  k <> "" -> keyed true k (fetchFromRobloxAPI rt url (Some k) ttl).
Proof.
  intros Hk w. rewrite fetch_unfold, (truthy_key_some k Hk).
  destruct (table_has (cache w) (now w) k).
  - exists [CacheHas k; CacheGet k]. simpl.
    split; [by rewrite <- List.app_assoc|]. split; [discriminate|].
    split; [by repeat constructor | done].
  - cbv zeta. destruct (outcome (next_reply rt url w)) as [resp|e].
    + exists [CacheHas k; HttpGet url roblox_config;
              CacheSet k (resp_data resp) (default 300 ttl)]. simpl.
      split; [by rewrite <- !List.app_assoc|]. split; [discriminate|].
      split; [by repeat constructor|].
      intros k' Hk'. unfold table_set. by rewrite lookup_insert_ne.
    + exists [CacheHas k; HttpGet url roblox_config]. simpl.
      split; [by rewrite <- List.app_assoc|]. split; [discriminate|].
      split; [by repeat constructor | done].
Qed.

Lemma keyed_auxiliary_calls (k u1 u2 : string) :
  keyed false k
    (allSettled2 (fetchFromRobloxAPI rt u1 None None) (fetchFromRobloxAPI rt u2 None None)).
Proof.
  intros w. destruct (auxiliary_calls u1 u2 w) as (s1 & s2 & w' & -> & Ht & Hc).
  exists [HttpGet u1 roblox_config; HttpGet u2 roblox_config]. simpl.
  split; [exact Ht|]. split; [discriminate|]. split; [constructor|].
  intros k' _. by rewrite Hc.
Qed.

Lemma keyed_uses_only_key {A} (k : string) (m : M A) :
  keyed true k m -> uses_only_key m k.
Proof.
  intros Hm w. destruct (Hm w) as (tr & Ht & Hn & Hk & Hc).
  rewrite (keys_used_of_trace m w tr Ht). auto.
Qed.

Lemma quiet_has_items (v : Val) : quiet (has_items rt v).
Proof.
  unfold has_items. apply quiet_bind; [apply quiet_lift|]. intros data.
  destruct (truthy data); repeat quiet_step.
Qed.

Lemma quiet_game_stats (gameId : string) (game : Val) : quiet (game_stats gameId game).
Proof. unfold game_stats. repeat quiet_step. Qed.

Lemma quiet_group_info (groupData : Val) : quiet (group_info groupData).
Proof. unfold group_info. repeat quiet_step. Qed.

Lemma keyed_player_handler (req : Request) :
  keyed true ("player_" +:+ req_params req "userId") (player_handler rt req).
Proof.
  unfold player_handler.
  apply keyed_try_catch; [|intros e; apply keyed_quiet, quiet_sendError].
  apply keyed_try_catch; [|intros e; apply keyed_quiet; repeat quiet_step].
  apply keyed_bind; [by apply keyed_fetch|]. intros userInfo.
  apply keyed_bind; [apply keyed_auxiliary_calls|]. intros [friendsData avatarData].
  apply keyed_quiet.
  apply quiet_bind; [apply quiet_lift|]. intros friendsCount.
  apply quiet_bind; [apply quiet_avatar_thumbnail|]. intros avatarThumbnail.
  apply quiet_bind; [apply quiet_player_profile|]. intros profile.
  apply quiet_sendResponse.
Qed.

Lemma keyed_game_stats_handler (req : Request) :
  keyed true ("game_stats_" +:+ req_params req "gameId") (game_stats_handler rt req).
Proof.
  unfold game_stats_handler.
  apply keyed_try_catch; [|intros e; apply keyed_quiet, quiet_sendError].
  apply keyed_try_catch;
    [|intros e; apply keyed_quiet; unfold game_stats_fallback; repeat quiet_step].
  apply keyed_bind; [by apply keyed_fetch|]. intros gameData.
  apply keyed_quiet.
  apply quiet_bind; [apply quiet_has_items|]. intros [|]; [|apply quiet_throw].
  apply quiet_bind; [apply quiet_lift|]. intros data.
  apply quiet_bind; [apply quiet_lift|]. intros game.
  apply quiet_bind; [apply quiet_game_stats|]. intros stats.
  apply quiet_sendResponse.
Qed.

Lemma keyed_group_handler (req : Request) :
  keyed true ("group_" +:+ req_params req "groupId") (group_handler rt req).
Proof.
  unfold group_handler.
  apply keyed_try_catch; [|intros e; apply keyed_quiet, quiet_sendError].
  apply keyed_try_catch; [|intros e; apply keyed_quiet; repeat quiet_step].
  apply keyed_bind; [by apply keyed_fetch|]. intros groupData.
  apply keyed_quiet.
  apply quiet_bind; [apply quiet_group_info|]. intros info.
  apply quiet_sendResponse.
Qed.

Lemma keyed_avatar_handler (req : Request) :
  keyed true (avatar_key (req_params req "userId") (avatar_size req))
    (avatar_handler rt req).
Proof.
  unfold avatar_handler.
  apply keyed_try_catch; [|intros e; apply keyed_quiet, quiet_sendError].
  apply keyed_try_catch; [|intros e; apply keyed_quiet, quiet_sendResponse].
  apply keyed_bind; [by apply keyed_fetch|]. intros avatarData.
  apply keyed_quiet.
  apply quiet_bind; [apply quiet_has_items|]. intros [|]; [|apply quiet_throw].
  repeat quiet_step.
Qed.

Lemma used_key_is {A} (m : M A) (k k' : string) (w : World) :
  uses_only_key m k -> k' ∈ keys_used m w -> k' = k.
Proof.
  intros Hm Hin. destruct (Hm w) as (_ & Hall & _).
  rewrite Forall_forall in Hall. symmetry. by apply Hall.
Qed.

Lemma distinct_keys_share_none {A B} (m1 : M A) (m2 : M B) (k1 k2 : string) :
  uses_only_key m1 k1 -> uses_only_key m2 k2 -> k1 <> k2 -> share_no_key m1 m2.
Proof.
  intros H1 H2 Hne w1 w2 k Hin1 Hin2.
  apply (used_key_is m1 k1 k w1 H1) in Hin1.
  apply (used_key_is m2 k2 k w2 H2) in Hin2. congruence.
Qed.

Lemma shared_key_equal {A B} (m1 : M A) (m2 : M B) (k1 k2 : string) :
  uses_only_key m1 k1 -> uses_only_key m2 k2 -> share_a_key m1 m2 -> k1 = k2.
Proof.
  intros H1 H2 (w1 & w2 & k & Hin1 & Hin2).
  apply (used_key_is m1 k1 k w1 H1) in Hin1.
  apply (used_key_is m2 k2 k w2 H2) in Hin2. congruence.
Qed.

(** The cache keys of the four caching routes never collide.  Every run
    of the player, game statistics, group and avatar handlers accesses
    the table, under its own key and no other ([player_<id>],
    [game_stats_<id>], [group_<id>], [avatar_<id>_<size>]), and leaves
    the entries of all other keys as they were.  No key is used by runs
    of two different handlers, whatever the requests and the worlds are.
    Two runs of the same handler that use a common key have the same
    id, and for the avatar handler the same user and size when the user
    ids contain no underscore (a numeric id contains none). *)
Theorem cache_keys_do_not_collide (req req' : Request) :
  (uses_only_key (player_handler rt req) ("player_" +:+ req_params req "userId") /\
   uses_only_key (game_stats_handler rt req) ("game_stats_" +:+ req_params req "gameId") /\
   uses_only_key (group_handler rt req) ("group_" +:+ req_params req "groupId") /\
   uses_only_key (avatar_handler rt req)
     (avatar_key (req_params req "userId") (avatar_size req))) /\
  (share_no_key (player_handler rt req) (game_stats_handler rt req') /\
   share_no_key (player_handler rt req) (group_handler rt req') /\
   share_no_key (player_handler rt req) (avatar_handler rt req') /\
   share_no_key (game_stats_handler rt req) (group_handler rt req') /\
   share_no_key (game_stats_handler rt req) (avatar_handler rt req') /\
   share_no_key (group_handler rt req) (avatar_handler rt req')) /\
  (share_a_key (player_handler rt req) (player_handler rt req') ->
   req_params req "userId" = req_params req' "userId") /\
  (share_a_key (game_stats_handler rt req) (game_stats_handler rt req') ->
   req_params req "gameId" = req_params req' "gameId") /\
  (share_a_key (group_handler rt req) (group_handler rt req') ->
   req_params req "groupId" = req_params req' "groupId") /\
  (has_char "_" (req_params req "userId") = false ->
   has_char "_" (req_params req' "userId") = false ->
   share_a_key (avatar_handler rt req) (avatar_handler rt req') ->
   req_params req "userId" = req_params req' "userId" /\ avatar_size req = avatar_size req').
Proof.
  pose proof (fun r => keyed_uses_only_key _ _ (keyed_player_handler r)) as Hplayer.
  pose proof (fun r => keyed_uses_only_key _ _ (keyed_game_stats_handler r)) as Hgame.
  pose proof (fun r => keyed_uses_only_key _ _ (keyed_group_handler r)) as Hgroup.
  pose proof (fun r => keyed_uses_only_key _ _ (keyed_avatar_handler r)) as Havatar.
  split; [by auto|].
  split.
  - repeat match goal with |- _ /\ _ => split end;
      (eapply distinct_keys_share_none; [by eauto | by eauto |]);
      match goal with
      | |- ?x +:+ ?a <> ?y +:+ ?b => apply (key_texts a b "" "")
      | |- _ +:+ ?a <> avatar_key ?b ?t => apply (key_texts a b "" t)
      end.
  - repeat match goal with |- _ /\ _ => split end.
    + intros Hs.
      destruct (key_texts (req_params req "userId") (req_params req' "userId") "" "")
        as (_ & _ & _ & _ & _ & _ & Hinj & _).
      exact (Hinj (shared_key_equal _ _ _ _ (Hplayer req) (Hplayer req') Hs)).
    + intros Hs.
      destruct (key_texts (req_params req "gameId") (req_params req' "gameId") "" "")
        as (_ & _ & _ & _ & _ & _ & _ & Hinj & _).
      exact (Hinj (shared_key_equal _ _ _ _ (Hgame req) (Hgame req') Hs)).
    + intros Hs.
      destruct (key_texts (req_params req "groupId") (req_params req' "groupId") "" "")
        as (_ & _ & _ & _ & _ & _ & _ & _ & Hinj & _).
      exact (Hinj (shared_key_equal _ _ _ _ (Hgroup req) (Hgroup req') Hs)).
    + intros Ha Hb Hs.
      destruct (key_texts (req_params req "userId") (req_params req' "userId")
                  (avatar_size req) (avatar_size req'))
        as (_ & _ & _ & _ & _ & _ & _ & _ & _ & Hinj).
      exact (Hinj Ha Hb (shared_key_equal _ _ _ _ (Havatar req) (Havatar req') Hs)).
Qed.

(** ** The global error handler *)

(** Outside the development mode the global error handler tells the
    client nothing about the error: the body is the fixed message with
    the code [INTERNAL_ERROR] and [details: null], whatever was thrown;
    in the development mode the details are the message of the error. *)
Theorem global_error_hides_message (error : Exn) (w : World) :
  (global_error_handler rt error w).2 = w /\
  (global_error_handler rt error w).1
  = Ok {| res_status := 500;
          res_body :=
            VObj [("success", VBool false);
                  ("error", VStr "Internal server error");
                  ("code", VStr "INTERNAL_ERROR");
                  ("details",
                   if decide (NODE_ENV rt = Some "development")
                   then VStr (exn_message error) else VNull);
                  ("timestamp", VStr (toISOString rt (now w)))] |}.
Proof.
  split; [reflexivity|].
  unfold global_error_handler.
  destruct (NODE_ENV rt) as [env|].
  - destruct (String.eqb env "development") eqn:E.
    + apply String.eqb_eq in E as ->. by rewrite decide_True.
    + apply String.eqb_neq in E. rewrite decide_False; [reflexivity | congruence].
  - by rewrite decide_False.
Qed.

End MoreHandlerProperties.

(** * Numbers and their decimal text *)







Section DecimalParameters.

Context (rt : Runtime).


End DecimalParameters.

(** * The further theorems at concrete inputs *)

(** At exactly 300 seconds after the store, the entry is still served. *)
Lemma fetch_populate_then_hit_witness :
  now (elapse 300000 world_after_first_fetch) = 300020 /\
  (fetchFromRobloxAPI (runtime_of upstream_A_then_B None) "https://elsewhere/y"
     (Some "player_1") None (elapse 300000 world_after_first_fetch)).1 = Ok profile_A.
Proof.
  split; [reflexivity|].
  destruct (fetch_populate_then_hit (runtime_of upstream_A_then_B None)
              (initial_world 0) (elapse 300000 world_after_first_fetch)
              "https://upstream/x" "https://elsewhere/y" "player_1"
              (Some 300) None (ok_response profile_A))
    as (Hval & _).
  - discriminate.
  - reflexivity.
  - reflexivity.
  - reflexivity.
  - vm_compute. discriminate.
  - exact Hval.
Defined.

Lemma random_below_range_witness :
  exists z,
    random_below (runtime_of upstream_A_then_B None) 1000 (initial_world 0)
    = (Ok z, drawn (initial_world 0)) /\ 0 <= z < 1000.
Proof.
  apply (random_below_range (runtime_of upstream_A_then_B None) 1000 (initial_world 0)).
  reflexivity.
Defined.

Lemma leaderboard_ranks_and_scores_witness :
  exists entries,
    Forall2 (ranked 50) (seq 0 50) entries /\
    own_property_of
      (response_data (leaderboard_handler (runtime_of upstream_A_then_B None) request_1
                        (initial_world 0)).1) "leaderboard" = VArr entries.
Proof.
  destruct (leaderboard_ranks_and_scores (runtime_of upstream_A_then_B None) request_1
              (initial_world 0)) as ((entries & Hdata & Hranked) & _).
  - vm_compute. discriminate.
  - exists entries. split; [exact Hranked|]. by rewrite Hdata.
Defined.

Lemma latest_events_list_witness :
  exists events,
    length events = 10%nat /\
    own_property_of
      (response_data (events_handler (runtime_of upstream_A_then_B None) request_1
                        (initial_world 0)).1) "events" = VArr events.
Proof.
  destruct (latest_events_list (runtime_of upstream_A_then_B None) request_1
              (initial_world 0)) as ((events & Hdata & Hlen & _) & _).
  - vm_compute. discriminate.
  - exists events. split; [exact Hlen|]. by rewrite Hdata.
Defined.

Lemma group_fallback_not_cached_witness :
  cache (group_handler (runtime_of (upstream_rejecting 35 status_503) None) request_1
           (initial_world 0)).2 = ∅.
Proof.
  destruct (group_fallback_not_cached (runtime_of (upstream_rejecting 35 status_503) None)
              request_1 (initial_world 0) status_503) as (_ & Hcache & _).
  - reflexivity.
  - reflexivity.
  - exact Hcache.
Defined.

Lemma group_repeat_served_from_cache_witness :
  outbound_calls
    (trace (group_handler (runtime_of (upstream_resolving group_7) None) request_1
              (elapse 1000
                 (group_handler (runtime_of (upstream_resolving group_7) None) request_1
                    (initial_world 0)).2)).2)
  = outbound_calls
      (trace (group_handler (runtime_of (upstream_resolving group_7) None) request_1
                (initial_world 0)).2).
Proof.
  destruct (group_repeat_served_from_cache (runtime_of (upstream_resolving group_7) None)
              request_1 (initial_world 0)
              (elapse 1000
                 (group_handler (runtime_of (upstream_resolving group_7) None) request_1
                    (initial_world 0)).2)
              (ok_response group_7)
              [("id", VInt 7); ("name", VStr "Builders"); ("memberCount", VInt 12)])
    as (_ & _ & Hcalls & _).
  - reflexivity.
  - reflexivity.
  - reflexivity.
  - reflexivity.
  - vm_compute. discriminate.
  - exact Hcalls.
Defined.

Lemma game_not_found_is_cached_witness :
  own_property_of
    (response_data (game_stats_handler (runtime_of (upstream_resolving no_game) None)
                      request_1 (initial_world 0)).1) "name" = VStr "Game 1" /\
  cache (game_stats_handler (runtime_of (upstream_resolving no_game) None) request_1
           (initial_world 0)).2 !! "game_stats_1"
  = Some {| entry_value := no_game; entry_expiry := 300020 |}.
Proof.
  destruct (game_not_found_is_cached (runtime_of (upstream_resolving no_game) None)
              request_1 (initial_world 0)
              (elapse 1000
                 (game_stats_handler (runtime_of (upstream_resolving no_game) None)
                    request_1 (initial_world 0)).2)
              (ok_response no_game))
    as (Hname & Hentry & _).
  - reflexivity.
  - reflexivity.
  - intros w'. reflexivity.
  - reflexivity.
  - vm_compute. discriminate.
  - split; [exact Hname | exact Hentry].
Defined.

Lemma avatar_fallback_image_witness :
  response_data
    (avatar_handler (runtime_of (upstream_rejecting 35 status_503) None) request_1
       (initial_world 0)).1
  = VObj [("userId", VInt 1);
          ("imageUrl",
           VStr "https://www.roblox.com/headshot-thumbnail/image?userId=1&width=150&height=150");
          ("state", VStr "Completed");
          ("size", VStr "150x150")].
Proof.
  destruct (avatar_fallback_image (runtime_of (upstream_rejecting 35 status_503) None)
              request_1 (initial_world 0) status_503 "150" "150") as (Hdata & _).
  - reflexivity.
  - reflexivity.
  - reflexivity.
  - reflexivity.
  - reflexivity.
  - exact Hdata.
Defined.


(** The user info is served and both auxiliary calls are rejected: the
    profile has no friends and the default thumbnail. *)
Lemma player_tolerates_auxiliary_failures_witness :
  own_property_of
    (response_data (player_handler (runtime_of upstream_users_only None) request_1
                      (initial_world 0)).1) "friendsCount" = VInt 0 /\
  own_property_of
    (response_data (player_handler (runtime_of upstream_users_only None) request_1
                      (initial_world 0)).1) "username" = VStr "Roblox".
Proof.
  destruct (player_tolerates_auxiliary_failures (runtime_of upstream_users_only None)
              request_1 (initial_world 0)
              (fetchFromRobloxAPI (runtime_of upstream_users_only None)
                 "https://users.roblox.com/v1/users/1" (Some "player_1") None
                 (initial_world 0)).2
              [("id", VInt 1); ("name", VStr "Roblox"); ("displayName", VStr "Roblox");
               ("description", VStr "The official Roblox account");
               ("created", VStr "2006-02-27T21:06:40.3Z");
               ("isBanned", VBool false); ("hasVerifiedBadge", VBool true)]
              status_503 status_503) as (t & Hresp).
  - reflexivity.
  - reflexivity.
  - reflexivity.
  - rewrite Hresp. by split.
Defined.

(** The player handler and the group handler serve the same parameter,
    42, from an empty table: each looks its own key up and stores under
    it, and the key of the player is not among the keys that the group
    handler uses. *)
Lemma cache_keys_do_not_collide_witness :
  keys_used (player_handler (runtime_of (upstream_resolving group_7) None) request_42)
    (initial_world 0) = ["player_42"; "player_42"] /\
  keys_used (group_handler (runtime_of (upstream_resolving group_7) None) request_42)
    (initial_world 0) = ["group_42"; "group_42"] /\
  ("player_42" ∈ keys_used
                   (group_handler (runtime_of (upstream_resolving group_7) None) request_42)
                   (initial_world 0) -> False).
Proof.
  destruct (cache_keys_do_not_collide (runtime_of (upstream_resolving group_7) None)
              request_42 request_42) as (_ & (_ & Hsep & _) & _).
  split; [vm_compute; reflexivity|].
  split; [vm_compute; reflexivity|].
  apply (Hsep (initial_world 0) (initial_world 0) "player_42").
  change ("player_42" ∈ ["player_42"; "player_42"]). apply elem_of_cons. by left.
Defined.
